(** * Device-service backend: wizard advisor, device probe, firmware catalog

    A shallow embedding of [src/main.py] (the FastAPI handlers
    [wizard_steps], [adb_info], [add_firmware], [search_firmware] and
    [record_consent]) together with the properties its specification
    states about them.

    Layout: the first half holds the embedding (modules [Py], [PyAscii],
    [Wizard], [Adb], [Catalog]), the statements the specification words
    differently from the code ([CatalogSpec]) and sample inputs
    ([Samples]); the second half holds the theorems, one section per
    component. *)

From Stdlib Require Import ZArith Ascii.
From stdpp Require Import gmap strings list fin_maps pretty.

(* ===================================================================== *)
(** * Python values, builtins and exceptions                              *)
(* ===================================================================== *)

Module Py.

(** The Python values that occur in the documents of the store: the
    fields of [FirmwareIn.model_dump()] and [ConsentIn.model_dump()] are
    [str], [None], [bool] and [List[str]]; the store adds its native
    identifier, an [ObjectId], printed by [str] as its hexadecimal
    digits. *)
Inductive value :=
| VNone
| VBool (b : bool)
| VStr (s : string)
| VList (l : list string)
| VObjectId (hex : string).

#[global] Instance value_eq_dec : EqDecision value.
Proof. solve_decision. Defined.

(** A Python [dict] with string keys. *)
Abbreviation dict := (gmap string value).

(** [Optional[str]] to a value, as [model_dump] does. *)
Definition of_opt (o : option string) : value :=
  match o with Some s => VStr s | None => VNone end.

(** The outcome of a call that may raise: the exception is kept as the
    text [str(e)], the only thing the handlers read from it. [Raise]
    stands for the exceptions [except Exception] catches. *)
Inductive exc (A : Type) :=
| Return (a : A)
| Raise (msg : string).
Arguments Return {A} a.
Arguments Raise {A} msg.

(** The builtins of [str] the handlers call, and [str()] itself. They
    belong to the interpreter, not to the repository; the handlers are
    embedded over any implementation of them. *)
Class Builtins := {
  lower : string → string;            (* str.lower *)
  strip : string → string;            (* str.strip *)
  splitlines : string → list string;  (* str.splitlines *)
  str : value → string                (* str(x) *)
}.

(** Truth value of a [str]: the empty string is false. *)
Definition truthy (s : string) : bool := bool_decide (s ≠ "").

(** Truth value of an [Optional[str]]: [None] and [""] are false. *)
Definition truthy_opt (o : option string) : bool :=
  match o with Some s => truthy s | None => false end.

(** [x or y] on [str]. *)
Definition or_ (x y : string) : string := if truthy x then x else y.

End Py.

(* ===================================================================== *)
(** * The builtins on ASCII text                                          *)
(* ===================================================================== *)

(** An executable instance of [Py.Builtins], used to run the handlers on
    concrete requests. It agrees with CPython on strings whose characters
    are all ASCII; characters above 127 are left as they are. *)
Module PyAscii.
Import Py.

Definition code (c : ascii) : N := N_of_ascii c.

(** [str.lower]: the letters A-Z move to a-z. *)
Definition lower_char (c : ascii) : ascii :=
  if (65 <=? code c)%N && (code c <=? 90)%N
  then ascii_of_N (code c + 32) else c.

Fixpoint lower (s : string) : string :=
  match s with
  | EmptyString => EmptyString
  | String c s' => String (lower_char c) (lower s')
  end.

(** [str.isspace] on one character: tab, LF, VT, FF, CR, the four
    separators 0x1c-0x1f and the space. *)
Definition is_space (c : ascii) : bool :=
  ((9 <=? code c)%N && (code c <=? 13)%N)
  || ((28 <=? code c)%N && (code c <=? 32)%N).

Fixpoint lstrip (s : string) : string :=
  match s with
  | EmptyString => EmptyString
  | String c s' => if is_space c then lstrip s' else s
  end.

Fixpoint rstrip (s : string) : string :=
  match s with
  | EmptyString => EmptyString
  | String c s' =>
      match rstrip s' with
      | EmptyString => if is_space c then EmptyString else String c EmptyString
      | r => String c r
      end
  end.

Definition strip (s : string) : string := rstrip (lstrip s).

(** The line boundaries of [str.splitlines]: LF, VT, FF, CR and the
    separators 0x1c-0x1e; CR LF counts once. *)
Definition is_linebreak (c : ascii) : bool :=
  ((10 <=? code c)%N && (code c <=? 13)%N)
  || ((28 <=? code c)%N && (code c <=? 30)%N).

Fixpoint splitlines_from (cur s : string) : list string :=
  match s with
  | EmptyString => if truthy cur then [cur] else []
  | String c s' =>
      if is_linebreak c then
        cur :: match s' with
               | String c' s'' =>
                   if (code c =? 13)%N && (code c' =? 10)%N
                   then splitlines_from EmptyString s''
                   else splitlines_from EmptyString s'
               | EmptyString => []
               end
      else splitlines_from (cur +:+ String c EmptyString) s'
  end.

Definition splitlines (s : string) : list string :=
  splitlines_from EmptyString s.

Definition squote : ascii := ascii_of_N 39.
Definition dquote : ascii := ascii_of_N 34.
Definition backslash : ascii := ascii_of_N 92.

Fixpoint contains (c : ascii) (s : string) : bool :=
  match s with
  | EmptyString => false
  | String c' s' => bool_decide (c = c') || contains c s'
  end.

Definition hex_digit (n : N) : ascii :=
  if (n <? 10)%N then ascii_of_N (48 + n) else ascii_of_N (87 + n).

(** One character of [repr] of a [str] quoted with [q]. *)
Definition repr_char (q c : ascii) : string :=
  if bool_decide (c = q) || bool_decide (c = backslash)
  then String backslash (String c EmptyString)
  else if (code c =? 9)%N then String backslash "t"
  else if (code c =? 10)%N then String backslash "n"
  else if (code c =? 13)%N then String backslash "r"
  else if (code c <? 32)%N || (code c =? 127)%N
  then String backslash
         (String "x" (String (hex_digit (code c / 16))
                        (String (hex_digit (code c mod 16)) EmptyString)))
  else String c EmptyString.

Fixpoint repr_body (q : ascii) (s : string) : string :=
  match s with
  | EmptyString => EmptyString
  | String c s' => repr_char q c +:+ repr_body q s'
  end.

(** [repr] of a [str]: single quotes, unless the text has a single
    quote and no double quote. *)
Definition repr (s : string) : string :=
  let q := if contains squote s && negb (contains dquote s)
           then dquote else squote in
  String q (repr_body q s +:+ String q EmptyString).

Fixpoint join (sep : string) (l : list string) : string :=
  match l with
  | [] => EmptyString
  | [x] => x
  | x :: l' => x +:+ sep +:+ join sep l'
  end.

Definition str (v : value) : string :=
  match v with
  | VNone => "None"
  | VBool true => "True"
  | VBool false => "False"
  | VStr s => s
  | VList l => "[" +:+ join ", " (repr <$> l) +:+ "]"
  | VObjectId hex => hex
  end.

Definition builtins : Builtins :=
  {| Py.lower := lower; Py.strip := strip;
     Py.splitlines := splitlines; Py.str := str |}.

End PyAscii.

(* ===================================================================== *)
(** * FastAPI's [HTTPException] and handler results                       *)
(* ===================================================================== *)

Record HTTPException := {
  status_code : Z;
  detail : string
}.

#[global] Instance HTTPException_eq_dec : EqDecision HTTPException.
Proof. solve_decision. Defined.

(** A handler either returns its response body or raises an
    [HTTPException]. *)
Inductive http (A : Type) :=
| Response (body : A)
| Raised (e : HTTPException).
Arguments Response {A} body.
Arguments Raised {A} e.

(** Sequencing: a raised [HTTPException] ends the handler. This gives
    stdpp's [x ← m; k] notation on [http]. *)
#[global] Instance http_ret : MRet http := λ _ a, Response a.
#[global] Instance http_bind : MBind http := λ _ _ k m,
  match m with
  | Response a => k a
  | Raised e => Raised e
  end.

(* ===================================================================== *)
(** * Wizard advisor: [wizard_steps]                                      *)
(* ===================================================================== *)

Module Wizard.
Import Py.

Record WizardRequest := {
  soc : string;
  method : string;
  model : option string;
  android_version : option string
}.

(** The JSON object the handler returns. *)
Record WizardResponse := {
  resp_soc : string;
  resp_method : string;
  resp_model : option string;
  resp_android_version : option string;
  steps : list string;
  disclaimer : string
}.

Definition supported_socs : gset string :=
  {[ "qualcomm"; "mtk"; "exynos" ]}.

Definition odin_methods : gset string :=
  {[ "odin"; "oneui_recovery" ]}.

Definition fastboot_steps : list string := [
  "Ensure OEM-unlocked bootloader if required by OEM; follow official guidance.";
  "Charge device above 50% and back up user data.";
  "Install official USB drivers and platform-tools.";
  "Reboot device to bootloader/fastboot mode.";
  "Use OEM-provided images matching exact model and Android version (14/15/16).";
  "Validate SHA256 checksum from OEM before proceeding.";
  "Use command-line fastboot to flash ONLY per OEM documentation.";
  "After completion, relock bootloader only if OEM permits and device boots fine."
].

Definition odin_steps : list string := [
  "Install latest Samsung USB drivers.";
  "Download official firmware from Samsung channels (matching CSC and model).";
  "Start device in Download Mode.";
  "Open Odin on a trusted workstation, load BL/AP/CP/CSC as per OEM instructions.";
  "Verify SHA256 checksums and binary revision (bootloader version).";
  "Start process and wait until pass; do not disconnect.";
  "On success, boot to recovery and wipe cache/data only if recommended by OEM."
].

Definition sideload_steps : list string := [
  "Enable USB debugging and OEM unlocking if applicable.";
  "Download official OTA package for your exact model and Android version.";
  "Reboot to recovery and choose 'Apply update from ADB'.";
  "From workstation, run 'adb sideload <ota.zip>' per OEM guidance.";
  "Wait for verification and installation to complete.";
  "Reboot and perform post-update checks."
].

Definition disclaimer_text : string :=
  "Guidance only. Use official tools and firmware. This app does not execute flashing operations.".

Definition unsupported_soc : HTTPException :=
  {| status_code := 400; detail := "Unsupported SoC" |}.

Definition unsupported_method : HTTPException :=
  {| status_code := 400; detail := "Unsupported method for selected SoC" |}.

(** The [if]/[elif]/[else] chain of the handler, on the lower-cased
    inputs. *)
Definition select_steps (soc method : string) : http (list string) :=
  if bool_decide (method = "fastboot") then Response fastboot_steps
  else if bool_decide (method ∈ odin_methods) && bool_decide (soc = "exynos")
  then Response odin_steps
  else if bool_decide (method = "adb_sideload") then Response sideload_steps
  else Raised unsupported_method.

Definition wizard_steps `{Builtins} (req : WizardRequest)
  : http WizardResponse :=
  let soc := lower (or_ (soc req) "") in
  let method := lower (or_ (method req) "") in
  if negb (bool_decide (soc ∈ supported_socs)) then Raised unsupported_soc
  else
    steps ← select_steps soc method;
    Response {|
      resp_soc := soc;
      resp_method := method;
      resp_model := model req;
      resp_android_version := android_version req;
      steps := steps;
      disclaimer := disclaimer_text
    |}.

End Wizard.

(* ===================================================================== *)
(** * Device probe: [adb_info]                                            *)
(* ===================================================================== *)

Module Adb.
Import Py.

Abbreviation argv := (list string).

(** What [subprocess.run(..., capture_output=True, text=True)] returns. *)
Record CompletedProcess := {
  returncode : Z;
  stdout : string;
  stderr : string
}.

(** The host the service runs on. [which] is [shutil.which]. [run] is
    [subprocess.run(argv, capture_output=True, text=True, timeout=5)]:
    it answers a command line given the command lines run before it, and
    raises (time-out, OS error) or completes. A non-zero return code is
    a completed call: the handler passes no [check=True]. *)
Record Host := {
  which : string → option string;
  run : list argv → argv → exc CompletedProcess
}.

(** Handler code that runs subprocesses: it threads the list of the
    command lines run so far, oldest first. *)
Definition io (A : Type) : Type := list argv → A * list argv.

#[global] Instance io_ret : MRet io := λ _ a log, (a, log).
#[global] Instance io_bind : MBind io := λ _ _ k m log,
  let '(a, log') := m log in k a log'.

Definition subprocess_run (h : Host) (cmd : argv)
  : io (exc CompletedProcess) :=
  λ log, (run h log cmd, log ++ [cmd]).

Abbreviation props_map := (gmap string (option string)).

(** The [info] dict, and the dict the handler returns. The keys
    [devices_raw] and [props] are not always set: [None] is an absent
    key. In [props] a value [None] is JSON [null]. *)
Record DeviceInfo := {
  adb_available : bool;
  adb_path : option string;
  devices : list string;
  errors : list string;
  devices_raw : option string;
  props : option props_map
}.

Definition set_listing (raw : string) (ds : list string) (i : DeviceInfo)
  : DeviceInfo :=
  {| adb_available := adb_available i; adb_path := adb_path i;
     devices := devices i ++ ds; errors := errors i;
     devices_raw := Some raw; props := props i |}.

Definition append_error (e : string) (i : DeviceInfo) : DeviceInfo :=
  {| adb_available := adb_available i; adb_path := adb_path i;
     devices := devices i; errors := errors i ++ [e];
     devices_raw := devices_raw i; props := props i |}.

(** [{**info, "props": props}] *)
Definition with_props (p : props_map) (i : DeviceInfo) : DeviceInfo :=
  {| adb_available := adb_available i; adb_path := adb_path i;
     devices := devices i; errors := errors i;
     devices_raw := devices_raw i; props := Some p |}.

Definition prop_keys : list string := [
  "ro.product.brand";
  "ro.product.device";
  "ro.product.model";
  "ro.build.id";
  "ro.build.version.release";
  "ro.build.version.sdk";
  "ro.build.fingerprint"
].

(** [lines = [l.strip() for l in stdout.splitlines() if l.strip()]],
    then [lines[1:]]: the header line is skipped. *)
Definition listed_devices `{Builtins} (out : string) : list string :=
  tail (strip <$> List.filter (λ l, truthy (strip l)) (splitlines out)).

Definition getprop_cmd (adb key : string) : argv :=
  [adb; "shell"; "getprop"; key].

(** The body of the loop over the keys, with its own [try]/[except]. *)
Definition query_prop `{Builtins} (h : Host) (adb key : string)
    (props : props_map) : io props_map :=
  gp ← subprocess_run h (getprop_cmd adb key);
  mret (match gp with
        | Return cp => <[key := Some (strip (stdout cp))]> props
        | Raise _ => <[key := None]> props
        end).

Fixpoint query_props `{Builtins} (h : Host) (adb : string)
    (keys : list string) (props : props_map) : io props_map :=
  match keys with
  | [] => mret props
  | key :: keys' =>
      props' ← query_prop h adb key props;
      query_props h adb keys' props'
  end.

Definition adb_info `{Builtins} (h : Host) : io DeviceInfo :=
  let adb_path := which h "adb" in
  let info := {| adb_available := truthy_opt adb_path;
                 adb_path := adb_path;
                 devices := []; errors := [];
                 devices_raw := None; props := None |} in
  if negb (truthy_opt adb_path) then mret info
  else
    let adb := default "" adb_path in
    out ← subprocess_run h [adb; "devices"; "-l"];
    let info := match out with
                | Return cp =>
                    set_listing (stdout cp) (listed_devices (stdout cp)) info
                | Raise e => append_error e info
                end in
    if bool_decide (devices info = []) then mret (with_props ∅ info)
    else
      getprop ← subprocess_run h [adb; "shell"; "getprop"];
      match getprop with
      | Return _ =>
          props ← query_props h adb prop_keys ∅;
          mret (with_props props info)
      | Raise e => mret (with_props ∅ (append_error e info))
      end.

(** Running the handler on a host: no command has been run yet. *)
Definition probe `{Builtins} (h : Host) : DeviceInfo * list argv :=
  adb_info h [].

(** What the loop stores for a key, given the outcome of its query. *)
Definition prop_value `{Builtins} (gp : exc CompletedProcess)
  : option string :=
  match gp with
  | Return cp => Some (strip (stdout cp))
  | Raise _ => None
  end.

(** The commands the probe runs before the per-property queries. *)
Definition preamble (adb : string) : list argv :=
  [[adb; "devices"; "-l"]; [adb; "shell"; "getprop"]].

(** The reading of "failures are captured into the errors list": every
    command the probe ran that raised has its message in [errors]. *)
Definition failures_in_errors `{Builtins} (h : Host) : Prop :=
  ∀ (i : nat) (cmd : argv) (e : string),
    (probe h).2 !! i = Some cmd →
    run h (take i (probe h).2) cmd = Raise e →
    e ∈ errors (probe h).1.

End Adb.

(* ===================================================================== *)
(** * Firmware catalog and consent recorder                               *)
(* ===================================================================== *)

Module Catalog.
Import Py.

Module FirmwareIn.
Record t := {
  soc : string;
  oem : string;
  model : string;
  android_version : string;
  build_number : option string;
  channel : option string;
  url : option string;
  checksum_sha256 : option string;
  notes : option string
}.

Definition model_dump (x : t) : dict :=
  {[ "soc" := VStr (soc x);
     "oem" := VStr (oem x);
     "model" := VStr (model x);
     "android_version" := VStr (android_version x);
     "build_number" := of_opt (build_number x);
     "channel" := of_opt (channel x);
     "url" := of_opt (url x);
     "checksum_sha256" := of_opt (checksum_sha256 x);
     "notes" := of_opt (notes x) ]}.
End FirmwareIn.

Module FirmwareFilter.
Record t := {
  model : option string;
  soc : option string;
  android_version : option string
}.
End FirmwareFilter.

Module ConsentIn.
Record t := {
  customer_name : string;
  device_model : string;
  android_version : option string;
  operations : list string;
  checklist_confirmed : bool;
  signature : option string
}.

Definition model_dump (x : t) : dict :=
  {[ "customer_name" := VStr (customer_name x);
     "device_model" := VStr (device_model x);
     "android_version" := of_opt (android_version x);
     "operations" := VList (operations x);
     "checklist_confirmed" := VBool (checklist_confirmed x);
     "signature" := of_opt (signature x) ]}.
End ConsentIn.

(** Code that talks to the store: it threads the store's state [S] and
    may raise. *)
Definition act (S A : Type) : Type := S → exc A * S.

#[global] Instance act_ret {S} : MRet (act S) := λ _ a st, (Return a, st).
#[global] Instance act_bind {S} : MBind (act S) := λ _ _ k m st,
  match m st with
  | (Return a, st') => k a st'
  | (Raise e, st') => (Raise e, st')
  end.

(** The two helpers the handlers import from the [database] module, as
    [main.py] calls them: [create_document(collection, record)] and
    [get_documents(collection, query, limit=...)]. *)
Record Database (S : Type) := {
  create_document : string → dict → act S string;
  get_documents : string → dict → nat → act S (list dict)
}.
Arguments create_document {S} _ _ _.
Arguments get_documents {S} _ _ _ _.

(** [from database import helper], inside the handler's [try]: the
    import itself raises when the module cannot be loaded. *)
Definition import_from {S A} (database : exc (Database S))
    (helper : Database S → A) : act S A :=
  λ st, match database with
        | Return db => (Return (helper db), st)
        | Raise e => (Raise e, st)
        end.

Definition service_unavailable (e : string) : HTTPException :=
  {| status_code := 503; detail := "Database unavailable: " +:+ e |}.

(** [try: ... except Exception as e: raise HTTPException(503, ...)] *)
Definition try_503 {S A} (body : act S A) : S → http A * S :=
  λ st, match body st with
        | (Return a, st') => (Response a, st')
        | (Raise e, st') => (Raised (service_unavailable e), st')
        end.

(** [{"id": ..., "status": ...}] *)
Record Saved := {
  id : string;
  status : string
}.

(** [{"items": docs}] *)
Record Found := {
  items : list dict
}.

Definition add_firmware {S} (database : exc (Database S))
    (item : FirmwareIn.t) : S → http Saved * S :=
  try_503 (
    create_document ← import_from database create_document;
    fid ← create_document "firmware" (FirmwareIn.model_dump item);
    mret {| id := fid; status := "saved" |}).

(** [if field: query[key] = field] *)
Definition constrain (key : string) (field : option string) (query : dict)
  : dict :=
  if truthy_opt field then <[key := of_opt field]> query else query.

Definition build_query (filters : FirmwareFilter.t) : dict :=
  constrain "android_version" (FirmwareFilter.android_version filters)
    (constrain "soc" (FirmwareFilter.soc filters)
       (constrain "model" (FirmwareFilter.model filters) ∅)).

(** [if "_id" in d: d["id"] = str(d.pop("_id"))] *)
Definition expose_id `{Builtins} (d : dict) : dict :=
  match d !! "_id" with
  | Some oid => <["id" := VStr (str oid)]> (delete "_id" d)
  | None => d
  end.

Definition search_firmware `{Builtins} {S} (database : exc (Database S))
    (filters : FirmwareFilter.t) : S → http Found * S :=
  try_503 (
    get_documents ← import_from database get_documents;
    let query := build_query filters in
    docs ← get_documents "firmware" query 100;
    mret {| items := expose_id <$> docs |}).

Definition record_consent {S} (database : exc (Database S))
    (consent : ConsentIn.t) : S → http Saved * S :=
  try_503 (
    create_document ← import_from database create_document;
    cid ← create_document "consent" (ConsentIn.model_dump consent);
    mret {| id := cid; status := "recorded" |}).

(** Modelled from the spec: the [database] module is not among the
    sources. The spec describes a document store with
    [create_document(collection, record) -> id], which stores the record
    verbatim under a store-assigned identifier, and
    [get_documents(collection, query, limit) -> list[record]], which
    returns at most [limit] records matching an equality-conjunction
    query, each carrying the native identifier field; an unreachable
    store is signalled by raising. *)
Record MemStore := {
  outage : option string;
  collections : gmap string (list (string * dict));
  next_id : N
}.

(** A record as the store returns it: with the native identifier. The
    store numbers its records; an identifier is the number in digits. *)
Definition stored_doc (p : string * dict) : dict :=
  <["_id" := VObjectId p.1]> p.2.

Definition documents (st : MemStore) (collection : string) : list dict :=
  stored_doc <$> (collections st !!! collection).

Definition mem_create_document (collection : string) (record : dict)
  : act MemStore string :=
  λ st, match outage st with
        | Some e => (Raise e, st)
        | None =>
            let oid := pretty (next_id st) in
            (Return oid,
             {| outage := None;
                collections :=
                  <[collection :=
                      (collections st !!! collection) ++ [(oid, record)]]>
                    (collections st);
                next_id := N.succ (next_id st) |})
        end.

Definition mem_get_documents (collection : string) (query : dict)
    (limit : nat) : act MemStore (list dict) :=
  λ st, match outage st with
        | Some e => (Raise e, st)
        | None =>
            (Return (take limit
                       (filter (λ d, query ⊆ d) (documents st collection))),
             st)
        end.

Definition mem_database : Database MemStore :=
  {| create_document := mem_create_document;
     get_documents := mem_get_documents |}.

End Catalog.

(* ===================================================================== *)
(** * Statements about the catalog, and sample hosts and stores           *)
(* ===================================================================== *)

Module CatalogSpec.
Import Py Catalog.

Definition raises {A} (x : exc A) : Prop := ∃ e, x = Raise e.

(** A 503 response: [HTTPException(status_code=503, ...)]. *)
Definition is_503 {A} (r : http A) : Prop :=
  ∃ d, r = Raised {| status_code := 503; detail := d |}.

(** The store call of [add_firmware] and [record_consent]: the helper
    is imported and called once. *)
Definition create_call {S} (database : exc (Database S))
    (collection : string) (record : dict) : act S string :=
  helper ← import_from database create_document;
  helper collection record.

(** The store call of [search_firmware]. *)
Definition get_call {S} (database : exc (Database S))
    (collection : string) (query : dict) (limit : nat)
  : act S (list dict) :=
  helper ← import_from database get_documents;
  helper collection query limit.

(** The filter field a query key stands for. *)
Definition field (filters : FirmwareFilter.t) (key : string)
  : option string :=
  if bool_decide (key = "model") then FirmwareFilter.model filters
  else if bool_decide (key = "soc") then FirmwareFilter.soc filters
  else if bool_decide (key = "android_version")
  then FirmwareFilter.android_version filters
  else None.

(** The query as the specification words it: one equality per field
    that is present in the request. *)
Definition present (key : string) (f : option string) (query : dict)
  : dict :=
  match f with
  | Some s => <[key := VStr s]> query
  | None => query
  end.

Definition query_of_present (filters : FirmwareFilter.t) : dict :=
  present "android_version" (FirmwareFilter.android_version filters)
    (present "soc" (FirmwareFilter.soc filters)
       (present "model" (FirmwareFilter.model filters) ∅)).

End CatalogSpec.

Module Samples.
Import Py.

Definition LF : string := String "010"%char EmptyString.

Definition adb : string := "/usr/bin/adb".

Definition completed (out : string) : exc Adb.CompletedProcess :=
  Return {| Adb.returncode := 0; Adb.stdout := out; Adb.stderr := "" |}.

(** A host without adb. *)
Definition bare_host : Adb.Host :=
  {| Adb.which := λ _, None;
     Adb.run := λ _ _, Raise "[Errno 2] No such file or directory" |}.

(** A host with adb and no device attached. *)
Definition idle_host : Adb.Host :=
  {| Adb.which := λ name,
       if bool_decide (name = "adb") then Some adb else None;
     Adb.run := λ _ _, completed ("List of devices attached" +:+ LF +:+ LF) |}.

(** A host with one device on which the query for the model times out
    and every other query answers. *)
Definition flaky_host : Adb.Host :=
  {| Adb.which := λ name,
       if bool_decide (name = "adb") then Some adb else None;
     Adb.run := λ _ cmd,
       if bool_decide (cmd = [adb; "devices"; "-l"])
       then completed ("List of devices attached" +:+ LF
                       +:+ "emulator-5554 device product:sdk" +:+ LF)
       else if bool_decide (cmd = Adb.getprop_cmd adb "ro.product.model")
       then Raise "Command timed out after 5 seconds"
       else completed ("34" +:+ LF) |}.

Definition pixel : Catalog.FirmwareIn.t :=
  {| Catalog.FirmwareIn.soc := "qualcomm";
     Catalog.FirmwareIn.oem := "Google";
     Catalog.FirmwareIn.model := "Pixel 9 Pro";
     Catalog.FirmwareIn.android_version := "15";
     Catalog.FirmwareIn.build_number := None;
     Catalog.FirmwareIn.channel := Some "stable";
     Catalog.FirmwareIn.url := None;
     Catalog.FirmwareIn.checksum_sha256 := None;
     Catalog.FirmwareIn.notes := None |}.

(** A reachable store holding one firmware record. *)
Definition one_record : Catalog.MemStore :=
  {| Catalog.outage := None;
     Catalog.collections :=
       {[ "firmware" := [("0", Catalog.FirmwareIn.model_dump pixel)] ]};
     Catalog.next_id := 1 |}.

Definition no_filter : Catalog.FirmwareFilter.t :=
  {| Catalog.FirmwareFilter.model := None;
     Catalog.FirmwareFilter.soc := None;
     Catalog.FirmwareFilter.android_version := None |}.

Definition empty_model : Catalog.FirmwareFilter.t :=
  {| Catalog.FirmwareFilter.model := Some "";
     Catalog.FirmwareFilter.soc := None;
     Catalog.FirmwareFilter.android_version := None |}.

Definition by_model : Catalog.FirmwareFilter.t :=
  {| Catalog.FirmwareFilter.model := Some "Pixel 9 Pro";
     Catalog.FirmwareFilter.soc := None;
     Catalog.FirmwareFilter.android_version := None |}.

End Samples.

(* ===================================================================== *)
(** * Database self-test: [test_database]                                 *)
(* ===================================================================== *)

Module Health.
Import Py.

(** [s[:n]] on a [str]: it belongs to the interpreter, like the builtins
    of [Py.Builtins]. *)
Class Slicing := {
  prefix : nat → string → string
}.

(** What reading [db.name] does: [hasattr(db, "name")] is false when the
    attribute is missing; a read that raises anything else ([Fails], an
    exception other than [ImportError]) leaves the [try] block. *)
Inductive attribute :=
| Missing
| Present (v : value)
| Fails (msg : string).

(** The [db] object of the [database] module, as far as the handler uses
    it. *)
Record Db := {
  name : attribute;
  list_collection_names : exc (list string)
}.

(** [from database import db]: the object ([None] when the module did not
    initialise it), an [ImportError], or another exception. *)
Inductive import_result :=
| Imported (db : option Db)
| ImportError (msg : string)
| OtherError (msg : string).

Record Env := {
  import_db : import_result;
  getenv : string → option string
}.

Definition set_flag (var : string) (e : Env) : value :=
  if truthy_opt (getenv e var) then VStr "✅ Set" else VStr "❌ Not Set".

(** The [try] block; [response] is the dict built so far. *)
Definition check_database `{Slicing} (e : Env) (response : dict) : dict :=
  match import_db e with
  | Imported (Some db) =>
      let response := <["database" := VStr "✅ Available"]> response in
      let response := <["database_url" := VStr "✅ Configured"]> response in
      match name db with
      | Fails msg =>
          <["database" := VStr ("❌ Error: " +:+ prefix 50 msg)]> response
      | attr =>
          let response :=
            <["database_name" := match attr with
                                 | Present v => v
                                 | _ => VStr "✅ Connected"
                                 end]> response in
          let response :=
            <["connection_status" := VStr "Connected"]> response in
          match list_collection_names db with
          | Return collections =>
              let response :=
                <["collections" := VList (take 10 collections)]> response in
              <["database" := VStr "✅ Connected & Working"]> response
          | Raise msg =>
              <["database" :=
                  VStr ("⚠️  Connected but Error: " +:+ prefix 50 msg)]>
                response
          end
      end
  | Imported None =>
      <["database" := VStr "⚠️  Available but not initialized"]> response
  | ImportError _ =>
      <["database" :=
          VStr "❌ Database module not found (run enable-database first)"]>
        response
  | OtherError msg =>
      <["database" := VStr ("❌ Error: " +:+ prefix 50 msg)]> response
  end.

Definition test_database `{Slicing} (e : Env) : dict :=
  let response : dict :=
    {[ "backend" := VStr "✅ Running";
       "database" := VStr "❌ Not Available";
       "database_url" := VNone;
       "database_name" := VNone;
       "connection_status" := VStr "Not Connected";
       "collections" := VList [] ]} in
  let response := check_database e response in
  let response := <["database_url" := set_flag "DATABASE_URL" e]> response in
  let response := <["database_name" := set_flag "DATABASE_NAME" e]> response in
  response.

(** [s[:n]] on ASCII text. *)
Fixpoint ascii_prefix (n : nat) (s : string) : string :=
  match n, s with
  | S n', String c s' => String c (ascii_prefix n' s')
  | _, _ => EmptyString
  end.

Definition ascii_slicing : Slicing := {| prefix := ascii_prefix |}.

End Health.

(* ===================================================================== *)
(** * Further statements and sample inputs                                *)
(* ===================================================================== *)

Module Derived.
Import Py.

(** A filter field as the search handler reads it: an empty string is no
    field. *)
Definition drop_blank (o : option string) : option string :=
  if truthy_opt o then o else None.

(** The wizard's response for a request, around a step list. *)
Definition reply `{Builtins} (req : Wizard.WizardRequest) (l : list string)
  : Wizard.WizardResponse :=
  {| Wizard.resp_soc := lower (Wizard.soc req);
     Wizard.resp_method := lower (Wizard.method req);
     Wizard.resp_model := Wizard.model req;
     Wizard.resp_android_version := Wizard.android_version req;
     Wizard.steps := l;
     Wizard.disclaimer := Wizard.disclaimer_text |}.

(** Reading [db.name] does not raise. *)
Definition reads_name (db : Health.Db) : Prop :=
  ∀ msg, Health.name db ≠ Health.Fails msg.

(** The import gave a database object whose name can be read. *)
Definition connected (e : Health.Env) : Prop :=
  ∃ db, Health.import_db e = Health.Imported (Some db) ∧ reads_name db.

(** The database object also listed its collections. *)
Definition working (e : Health.Env) : Prop :=
  ∃ db cs, Health.import_db e = Health.Imported (Some db)
           ∧ reads_name db
           ∧ Health.list_collection_names db = Return cs.

(** The command lines the probe is written to run with the executable
    [adb]. *)
Definition read_only (adb : string) (cmd : Adb.argv) : Prop :=
  cmd = [adb; "devices"; "-l"]
  ∨ cmd = [adb; "shell"; "getprop"]
  ∨ ∃ key, key ∈ Adb.prop_keys ∧ cmd = Adb.getprop_cmd adb key.

End Derived.

Module MoreSamples.
Import Py.

(** A host whose adb cannot be started. *)
Definition deaf_host : Adb.Host :=
  {| Adb.which := λ name,
       if bool_decide (name = "adb") then Some Samples.adb else None;
     Adb.run := λ _ _, Raise "[Errno 13] Permission denied" |}.

(** A host with one device listed on which [adb shell] fails. *)
Definition mute_host : Adb.Host :=
  {| Adb.which := λ name,
       if bool_decide (name = "adb") then Some Samples.adb else None;
     Adb.run := λ _ cmd,
       if bool_decide (cmd = [Samples.adb; "devices"; "-l"])
       then Samples.completed ("List of devices attached" +:+ Samples.LF
                               +:+ "emulator-5554 offline" +:+ Samples.LF)
       else Raise "Command timed out after 5 seconds" |}.

(** The request ("Exynos", "ODIN") and the wizard's answer to it. *)
Definition odin_request : Wizard.WizardRequest :=
  {| Wizard.soc := "Exynos"; Wizard.method := "ODIN";
     Wizard.model := Some "SM-S921B"; Wizard.android_version := Some "14" |}.

Definition odin_response : Wizard.WizardResponse :=
  {| Wizard.resp_soc := "exynos"; Wizard.resp_method := "odin";
     Wizard.resp_model := Some "SM-S921B";
     Wizard.resp_android_version := Some "14";
     Wizard.steps := Wizard.odin_steps;
     Wizard.disclaimer := Wizard.disclaimer_text |}.

(** The request ("exynos", "flashtool"). *)
Definition flashtool_request : Wizard.WizardRequest :=
  {| Wizard.soc := "exynos"; Wizard.method := "flashtool";
     Wizard.model := None; Wizard.android_version := None |}.

(** A database with twelve collections, and no environment variable. *)
Definition crowded_env : Health.Env :=
  {| Health.import_db :=
       Health.Imported
         (Some {| Health.name := Health.Present (VStr "appdb");
                  Health.list_collection_names :=
                    Return ["c01"; "c02"; "c03"; "c04"; "c05"; "c06";
                            "c07"; "c08"; "c09"; "c10"; "c11"; "c12"] |});
     Health.getenv := λ _, None |}.

End MoreSamples.

(* ===================================================================== *)
(** * Properties of the wizard advisor                                    *)
(* ===================================================================== *)

Section WizardProperties.
Import Py Wizard.
Context `{Builtins}.

Lemma or_empty (s : string) : or_ s "" = s.
Proof.
  unfold or_, truthy. case_bool_decide as Hs; [done|].
  destruct (decide (s = "")) as [->|]; [done|]. by destruct Hs.
Qed.

Lemma supported_socs_spec (s : string) :
  s ∈ supported_socs ↔ s = "qualcomm" ∨ s = "mtk" ∨ s = "exynos".
Proof.
  unfold supported_socs. rewrite !elem_of_union, !elem_of_singleton. tauto.
Qed.

Lemma odin_methods_spec (m : string) :
  m ∈ odin_methods ↔ m = "odin" ∨ m = "oneui_recovery".
Proof.
  unfold odin_methods. rewrite elem_of_union, !elem_of_singleton. tauto.
Qed.

(** The handler, with the two normalisations read off. *)
Lemma wizard_steps_eq (req : WizardRequest) :
  wizard_steps req =
    if bool_decide (lower (soc req) ∈ supported_socs)
    then l ← select_steps (lower (soc req)) (lower (method req));
         Response {| resp_soc := lower (soc req);
                     resp_method := lower (method req);
                     resp_model := model req;
                     resp_android_version := android_version req;
                     steps := l;
                     disclaimer := disclaimer_text |}
    else Raised unsupported_soc.
Proof.
  unfold wizard_steps. rewrite !or_empty. by case_bool_decide.
Qed.

Lemma select_fastboot (s : string) :
  select_steps s "fastboot" = Response fastboot_steps.
Proof. reflexivity. Qed.

Lemma select_odin (m : string) :
  m ≠ "fastboot" → m ∈ odin_methods →
  select_steps "exynos" m = Response odin_steps.
Proof.
  intros Hf Hm. unfold select_steps.
  rewrite (bool_decide_eq_false_2 _ Hf), (bool_decide_eq_true_2 _ Hm).
  reflexivity.
Qed.

Lemma select_sideload (s : string) :
  select_steps s "adb_sideload" = Response sideload_steps.
Proof.
  unfold select_steps. rewrite bool_decide_eq_false_2 by done.
  rewrite (bool_decide_eq_false_2 ("adb_sideload" ∈ odin_methods)).
  - reflexivity.
  - rewrite odin_methods_spec. by intros [|].
Qed.

Lemma select_unsupported (s m : string) :
  m ≠ "fastboot" → ¬ (m ∈ odin_methods ∧ s = "exynos") →
  m ≠ "adb_sideload" →
  select_steps s m = Raised unsupported_method.
Proof.
  intros Hf Ho Ha. unfold select_steps.
  rewrite (bool_decide_eq_false_2 _ Hf), (bool_decide_eq_false_2 _ Ha).
  destruct (bool_decide (m ∈ odin_methods)) eqn:E1;
    destruct (bool_decide (s = "exynos")) eqn:E2; try reflexivity.
  apply bool_decide_eq_true_1 in E1, E2. by destruct Ho.
Qed.

(** C1. Whenever the lower-cased soc is one of qualcomm, mtk, exynos and
    the lower-cased method is fastboot, the handler returns a response
    whose step list is the fixed list of eight fastboot steps and whose
    disclaimer is the constant text; the list does not depend on the
    soc or on the letter case of the inputs. *)
Theorem wizard_fastboot (req : WizardRequest) :
  lower (soc req) = "qualcomm" ∨ lower (soc req) = "mtk"
    ∨ lower (soc req) = "exynos" →
  lower (method req) = "fastboot" →
  wizard_steps req =
    Response {| resp_soc := lower (soc req);
                resp_method := "fastboot";
                resp_model := model req;
                resp_android_version := android_version req;
                steps := fastboot_steps;
                disclaimer := disclaimer_text |}
  ∧ length fastboot_steps = 8.
Proof.
  intros Hsoc Hm. split; [|reflexivity].
  rewrite wizard_steps_eq.
  rewrite bool_decide_eq_true_2 by by apply supported_socs_spec.
  rewrite Hm, select_fastboot. reflexivity.
Qed.

(** C2. Whenever the lower-cased soc is none of qualcomm, mtk, exynos,
    the handler raises the 400 error "Unsupported SoC", whatever the
    method, the model and the version are. *)
Theorem wizard_unsupported_soc (s m : string) (mo av : option string) :
  ¬ (lower s = "qualcomm" ∨ lower s = "mtk" ∨ lower s = "exynos") →
  wizard_steps {| soc := s; method := m;
                  model := mo; android_version := av |}
  = Raised {| status_code := 400; detail := "Unsupported SoC" |}.
Proof.
  intros Hsoc. rewrite wizard_steps_eq. cbn [soc].
  rewrite bool_decide_eq_false_2; [reflexivity|].
  by rewrite supported_socs_spec.
Qed.

(** C3. For a validated soc and a method other than fastboot: odin and
    oneui_recovery on exynos give the seven Odin steps; adb_sideload
    gives the six sideload steps on every validated soc; everything
    else raises the 400 error "Unsupported method for selected SoC". *)
Theorem wizard_other_methods (req : WizardRequest) :
  lower (soc req) = "qualcomm" ∨ lower (soc req) = "mtk"
    ∨ lower (soc req) = "exynos" →
  lower (method req) ≠ "fastboot" →
  let odin :=
    (lower (method req) = "odin" ∨ lower (method req) = "oneui_recovery")
    ∧ lower (soc req) = "exynos" in
  let reply l :=
    Response {| resp_soc := lower (soc req);
                resp_method := lower (method req);
                resp_model := model req;
                resp_android_version := android_version req;
                steps := l;
                disclaimer := disclaimer_text |} in
  (odin → wizard_steps req = reply odin_steps)
  ∧ (lower (method req) = "adb_sideload" →
     wizard_steps req = reply sideload_steps)
  ∧ (¬ odin → lower (method req) ≠ "adb_sideload" →
     wizard_steps req =
       Raised {| status_code := 400;
                 detail := "Unsupported method for selected SoC" |})
  ∧ length odin_steps = 7 ∧ length sideload_steps = 6.
Proof.
  intros Hsoc Hf odin reply. subst odin reply.
  rewrite wizard_steps_eq.
  rewrite bool_decide_eq_true_2 by by apply supported_socs_spec.
  repeat split.
  - intros [Hm He]. rewrite He, select_odin; [reflexivity|done|].
    by apply odin_methods_spec.
  - intros Hm. rewrite Hm, select_sideload. reflexivity.
  - intros Ho Ha. rewrite select_unsupported; [reflexivity|done| |done].
    rewrite odin_methods_spec. exact Ho.
Qed.

(** C4. Two requests with the same soc and method and any models and
    versions either both raise the same error or both return, with the
    same step list and disclaimer, each echoing its own model and
    version unchanged. *)
Theorem wizard_model_version_irrelevant
    (s m : string) (mo1 av1 mo2 av2 : option string) :
  match wizard_steps {| soc := s; method := m;
                        model := mo1; android_version := av1 |},
        wizard_steps {| soc := s; method := m;
                        model := mo2; android_version := av2 |} with
  | Response r1, Response r2 =>
      steps r1 = steps r2 ∧ disclaimer r1 = disclaimer r2
      ∧ resp_model r1 = mo1 ∧ resp_android_version r1 = av1
      ∧ resp_model r2 = mo2 ∧ resp_android_version r2 = av2
  | Raised e1, Raised e2 => e1 = e2
  | _, _ => False
  end.
Proof.
  rewrite !wizard_steps_eq. cbn [soc method].
  case_bool_decide; [|reflexivity].
  destruct (select_steps (lower s) (lower m)); cbn; done.
Qed.

End WizardProperties.

(** A run of C1 on the ASCII builtins: soc "MTK", method "FastBoot". *)
Lemma wizard_fastboot_witness :
  Wizard.wizard_steps (H := PyAscii.builtins)
    {| Wizard.soc := "MTK"; Wizard.method := "FastBoot";
       Wizard.model := Some "Redmi"; Wizard.android_version := None |}
  = Response {| Wizard.resp_soc := "mtk";
                Wizard.resp_method := "fastboot";
                Wizard.resp_model := Some "Redmi";
                Wizard.resp_android_version := None;
                Wizard.steps := Wizard.fastboot_steps;
                Wizard.disclaimer := Wizard.disclaimer_text |}
  ∧ length Wizard.fastboot_steps = 8.
Proof.
  apply (wizard_fastboot (H := PyAscii.builtins)
           {| Wizard.soc := "MTK"; Wizard.method := "FastBoot";
              Wizard.model := Some "Redmi";
              Wizard.android_version := None |}).
  - right; left; reflexivity.
  - reflexivity.
Defined.

(** A run of C2 on the ASCII builtins: steps("tizen", "fastboot"). *)
Lemma wizard_unsupported_soc_witness :
  Wizard.wizard_steps (H := PyAscii.builtins)
    {| Wizard.soc := "tizen"; Wizard.method := "fastboot";
       Wizard.model := None; Wizard.android_version := None |}
  = Raised {| status_code := 400; detail := "Unsupported SoC" |}.
Proof.
  apply (wizard_unsupported_soc (H := PyAscii.builtins)).
  cbn. intros [?|[?|?]]; discriminate.
Defined.

(** Runs of C3 on the ASCII builtins: steps("Exynos", "ODIN") is the Odin
    flow and steps("qualcomm", "odin") is refused. *)
Lemma wizard_other_methods_witness :
  Wizard.wizard_steps (H := PyAscii.builtins)
    {| Wizard.soc := "Exynos"; Wizard.method := "ODIN";
       Wizard.model := None; Wizard.android_version := Some "14" |}
  = Response {| Wizard.resp_soc := "exynos";
                Wizard.resp_method := "odin";
                Wizard.resp_model := None;
                Wizard.resp_android_version := Some "14";
                Wizard.steps := Wizard.odin_steps;
                Wizard.disclaimer := Wizard.disclaimer_text |}
  ∧ Wizard.wizard_steps (H := PyAscii.builtins)
      {| Wizard.soc := "qualcomm"; Wizard.method := "odin";
         Wizard.model := None; Wizard.android_version := None |}
    = Raised {| status_code := 400;
                detail := "Unsupported method for selected SoC" |}.
Proof.
  split.
  - apply (wizard_other_methods (H := PyAscii.builtins)
             {| Wizard.soc := "Exynos"; Wizard.method := "ODIN";
                Wizard.model := None;
                Wizard.android_version := Some "14" |}).
    + right; right; reflexivity.
    + discriminate.
    + split; [left|]; reflexivity.
  - apply (wizard_other_methods (H := PyAscii.builtins)
             {| Wizard.soc := "qualcomm"; Wizard.method := "odin";
                Wizard.model := None; Wizard.android_version := None |}).
    + left; reflexivity.
    + discriminate.
    + intros [_ ?]; discriminate.
    + discriminate.
Defined.

(* ===================================================================== *)
(** * Properties of the device probe                                      *)
(* ===================================================================== *)

Section AdbProperties.
Import Py Adb.
Context `{Builtins}.
Variable h : Host.

Lemma query_prop_eq (adb key : string) (p : props_map) (log : list argv) :
  query_prop h adb key p log =
    (<[key := prop_value (run h log (getprop_cmd adb key))]> p,
     log ++ [getprop_cmd adb key]).
Proof.
  unfold query_prop, mbind, io_bind, subprocess_run, mret, io_ret.
  by destruct (run h log (getprop_cmd adb key)).
Qed.

(** The loop queries every key, in order, whatever the outcomes of the
    earlier queries, and stores one value per key. *)
Lemma query_props_spec (adb : string) (keys : list string) :
  NoDup keys →
  ∀ (p0 : props_map) (log : list argv),
  ∃ p : props_map,
    query_props h adb keys p0 log
      = (p, log ++ (getprop_cmd adb <$> keys))
    ∧ (∀ (i : nat) (k : string), keys !! i = Some k →
         p !! k = Some (prop_value
                          (run h (log ++ (getprop_cmd adb <$> take i keys))
                             (getprop_cmd adb k))))
    ∧ (∀ k : string, k ∉ keys → p !! k = p0 !! k).
Proof.
  induction keys as [|key keys IH]; intros Hnd p0 log.
  - exists p0. cbn. rewrite app_nil_r. split; [done|]. split; [|done].
    intros i k Hk. by rewrite lookup_nil in Hk.
  - apply NoDup_cons in Hnd as [Hkey Hnd].
    cbn [query_props]. unfold mbind, io_bind. rewrite query_prop_eq.
    destruct (IH Hnd (<[key := prop_value (run h log (getprop_cmd adb key))]> p0)
                (log ++ [getprop_cmd adb key])) as (p & Hrun & Hin & Hout).
    exists p. split; [|split].
    + fold (@query_props H). rewrite Hrun. f_equal.
      by rewrite <- app_assoc.
    + intros [|i] k Hk; cbn in Hk.
      * injection Hk as <-. rewrite (Hout _ Hkey), lookup_insert_eq.
        cbn. by rewrite app_nil_r.
      * rewrite (Hin _ _ Hk). cbn. by rewrite <- app_assoc.
    + intros k Hk. apply not_elem_of_cons in Hk as [Hne Hk].
      rewrite (Hout _ Hk). by rewrite lookup_insert_ne.
Qed.

Lemma prop_keys_NoDup : NoDup prop_keys.
Proof. apply (bool_decide_unpack (NoDup prop_keys)). vm_compute. exact I. Qed.

(** The probe on a host with adb: the two early parts read off. *)
Lemma probe_present (adb : string) :
  which h "adb" = Some adb → adb ≠ "" →
  probe h =
    let info0 := {| adb_available := true; adb_path := Some adb;
                    devices := []; errors := [];
                    devices_raw := None; props := None |} in
    let info := match run h [] [adb; "devices"; "-l"] with
                | Return cp =>
                    set_listing (stdout cp) (listed_devices (stdout cp)) info0
                | Raise e => append_error e info0
                end in
    if bool_decide (devices info = [])
    then (with_props ∅ info, [[adb; "devices"; "-l"]])
    else match run h [[adb; "devices"; "-l"]] [adb; "shell"; "getprop"] with
         | Return _ =>
             let r := query_props h adb prop_keys ∅ (preamble adb) in
             (with_props r.1 info, r.2)
         | Raise e => (with_props ∅ (append_error e info), preamble adb)
         end.
Proof.
  intros Hw Hne. unfold probe, adb_info. rewrite Hw.
  change (default "" (Some adb)) with adb.
  cbn [truthy_opt]. unfold truthy.
  rewrite (bool_decide_eq_true_2 _ Hne). cbn [negb].
  unfold mbind, io_bind, subprocess_run, mret, io_ret. cbn [app].
  case_bool_decide; [reflexivity|].
  destruct (run h [[adb; "devices"; "-l"]] [adb; "shell"; "getprop"]);
    [|reflexivity].
  unfold preamble.
  by destruct (query_props h adb prop_keys ∅ _).
Qed.

(** C5. When [shutil.which] finds no adb executable, the probe returns
    at once: not available, no devices, no errors, no further key, and
    no command has been run. *)
Theorem probe_without_adb :
  which h "adb" = None →
  probe h = ({| adb_available := false; adb_path := None;
                devices := []; errors := [];
                devices_raw := None; props := None |}, []).
Proof.
  intros Hw. unfold probe, adb_info. rewrite Hw. reflexivity.
Qed.

(** C6. When adb is present and the listing yields no device (no line
    after the header, or the listing itself raised), the probe returns
    an empty props map and has run the listing command only. *)
Theorem probe_no_devices (adb : string) :
  which h "adb" = Some adb → adb ≠ "" →
  match run h [] [adb; "devices"; "-l"] with
  | Return cp => listed_devices (stdout cp)
  | Raise _ => []
  end = [] →
  props (probe h).1 = Some ∅
  ∧ devices (probe h).1 = []
  ∧ (probe h).2 = [[adb; "devices"; "-l"]].
Proof.
  intros Hw Hne Hl. rewrite (probe_present adb Hw Hne). cbv zeta.
  destruct (run h [] [adb; "devices"; "-l"]) as [cp|e].
  - cbn [set_listing devices app]. rewrite Hl.
    rewrite bool_decide_eq_true_2 by done. done.
  - cbn [append_error devices].
    rewrite bool_decide_eq_true_2 by done. done.
Qed.

(** C7, as the code has it. Once a device is listed and the bulk
    [getprop] call has completed, all seven properties are queried, in
    order; a query that raises stores null for its own key and nothing
    else, a query that completes stores its stripped output; the probe
    returns, and no per-property failure is added to [errors]. *)
Theorem probe_property_failures (adb : string) (cp cp' : CompletedProcess) :
  which h "adb" = Some adb → adb ≠ "" →
  run h [] [adb; "devices"; "-l"] = Return cp →
  listed_devices (stdout cp) ≠ [] →
  run h [[adb; "devices"; "-l"]] [adb; "shell"; "getprop"] = Return cp' →
  ∃ p : props_map,
    props (probe h).1 = Some p
    ∧ (probe h).2 = preamble adb ++ (getprop_cmd adb <$> prop_keys)
    ∧ (∀ (i : nat) (k : string), prop_keys !! i = Some k →
         p !! k =
           Some (match run h (preamble adb
                                ++ (getprop_cmd adb <$> take i prop_keys))
                         (getprop_cmd adb k) with
                 | Return gp => Some (strip (stdout gp))
                 | Raise _ => None
                 end))
    ∧ (∀ k : string, k ∉ prop_keys → p !! k = None)
    ∧ length prop_keys = 7
    ∧ errors (probe h).1 = []
    ∧ devices (probe h).1 = listed_devices (stdout cp).
Proof.
  intros Hw Hne Hl Hd Hg. rewrite (probe_present adb Hw Hne). cbv zeta.
  rewrite Hl, Hg. cbn [set_listing devices app].
  rewrite (bool_decide_eq_false_2 _ Hd).
  destruct (query_props_spec adb prop_keys prop_keys_NoDup ∅ (preamble adb))
    as (p & Hrun & Hin & Hout).
  rewrite Hrun. exists p. cbn [fst snd with_props props errors devices].
  split; [reflexivity|]. split; [reflexivity|].
  split; [exact Hin|]. split; [|done].
  intros k Hk. rewrite (Hout k Hk). apply lookup_empty.
Qed.

End AdbProperties.

(** A run of C5 on a host without adb. *)
Lemma probe_without_adb_witness :
  Adb.probe (H := PyAscii.builtins) Samples.bare_host
  = ({| Adb.adb_available := false; Adb.adb_path := None;
        Adb.devices := []; Adb.errors := [];
        Adb.devices_raw := None; Adb.props := None |}, []).
Proof.
  apply (probe_without_adb (H := PyAscii.builtins) Samples.bare_host).
  reflexivity.
Defined.

(** A run of C6 on a host whose listing holds the header line only. *)
Lemma probe_no_devices_witness :
  Adb.props (Adb.probe (H := PyAscii.builtins) Samples.idle_host).1 = Some ∅
  ∧ Adb.devices (Adb.probe (H := PyAscii.builtins) Samples.idle_host).1 = []
  ∧ (Adb.probe (H := PyAscii.builtins) Samples.idle_host).2
    = [[Samples.adb; "devices"; "-l"]].
Proof.
  apply (probe_no_devices (H := PyAscii.builtins)
           Samples.idle_host Samples.adb).
  - reflexivity.
  - discriminate.
  - reflexivity.
Defined.

(** A run of C7 on a host where the query for the model times out: the
    model is null, the other properties are read, [errors] stays empty,
    and nine commands were run. *)
Lemma probe_property_failures_witness :
  ∃ p : Adb.props_map,
    Adb.props (Adb.probe (H := PyAscii.builtins) Samples.flaky_host).1 = Some p
    ∧ p !! "ro.product.model" = Some None
    ∧ p !! "ro.build.version.sdk" = Some (Some "34")
    ∧ Adb.errors (Adb.probe (H := PyAscii.builtins) Samples.flaky_host).1 = []
    ∧ length (Adb.probe (H := PyAscii.builtins) Samples.flaky_host).2 = 9.
Proof.
  destruct (probe_property_failures (H := PyAscii.builtins)
              Samples.flaky_host Samples.adb
              {| Adb.returncode := 0;
                 Adb.stdout := "List of devices attached" +:+ Samples.LF
                   +:+ "emulator-5554 device product:sdk" +:+ Samples.LF;
                 Adb.stderr := "" |}
              {| Adb.returncode := 0;
                 Adb.stdout := "34" +:+ Samples.LF;
                 Adb.stderr := "" |})
    as (p & Hp & Hlog & Hin & _ & _ & He & _).
  - reflexivity.
  - discriminate.
  - reflexivity.
  - discriminate.
  - reflexivity.
  - exists p. split; [exact Hp|].
    split; [exact (Hin 2 "ro.product.model" eq_refl)|].
    split; [exact (Hin 5 "ro.build.version.sdk" eq_refl)|].
    split; [exact He|].
    rewrite Hlog. reflexivity.
Defined.

(** C7 as worded fails: on that host the query for the model raised, and
    its message is not in [errors]. *)
Lemma probe_failure_not_in_errors :
  ¬ Adb.failures_in_errors (H := PyAscii.builtins) Samples.flaky_host.
Proof.
  intros Hc.
  specialize (Hc 4 (Adb.getprop_cmd Samples.adb "ro.product.model")
                "Command timed out after 5 seconds").
  assert (Hin : "Command timed out after 5 seconds"
                ∈ Adb.errors (Adb.probe (H := PyAscii.builtins)
                                Samples.flaky_host).1).
  { apply Hc; reflexivity. }
  vm_compute in Hin. by apply elem_of_nil in Hin.
Qed.

(* ===================================================================== *)
(** * Properties of the firmware catalog and the consent recorder         *)
(* ===================================================================== *)

Section CatalogProperties.
Import Py Catalog CatalogSpec.
Context `{Builtins}.

Lemma truthy_opt_spec (o : option string) :
  truthy_opt o = true ↔ ∃ s, o = Some s ∧ s ≠ "".
Proof.
  destruct o as [s|]; cbn; unfold truthy.
  - rewrite bool_decide_eq_true. split; [by eauto|].
    by intros (s' & [= <-] & Hs).
  - split; [done|]. by intros (s & ? & _).
Qed.

Lemma constrain_lookup (key : string) (f : option string) (q : dict)
    (k : string) :
  constrain key f q !! k =
    if bool_decide (k = key) && truthy_opt f then Some (of_opt f)
    else q !! k.
Proof.
  unfold constrain. destruct (truthy_opt f); [|by rewrite andb_false_r].
  rewrite andb_true_r. case_bool_decide as Hk.
  - subst k. apply lookup_insert_eq.
  - by apply lookup_insert_ne.
Qed.

(** The query holds one equality for each filter field that is present
    and not empty, and nothing else. *)
Lemma build_query_lookup (filters : FirmwareFilter.t) (k : string)
    (v : value) :
  build_query filters !! k = Some v
  ↔ ∃ s, field filters k = Some s ∧ s ≠ "" ∧ v = VStr s.
Proof.
  unfold build_query, field. rewrite !constrain_lookup, lookup_empty.
  assert (Hf : ∀ f : option string,
             (truthy_opt f = true ∧ Some (of_opt f) = Some v)
             ↔ ∃ s, f = Some s ∧ s ≠ "" ∧ v = VStr s).
  { intros f. rewrite truthy_opt_spec. split.
    - intros [(s & -> & Hs) [= <-]]. by exists s.
    - intros (s & -> & Hs & ->). split; [by exists s|done]. }
  repeat case_bool_decide; simplify_eq; cbn [andb];
    try (rewrite <- Hf;
         match goal with |- context [truthy_opt ?f] =>
           destruct (truthy_opt f) end;
         intuition congruence).
  split; [done|]. by intros (s & ? & _).
Qed.

Lemma expose_id_stored (oid : string) (record : dict) :
  expose_id (stored_doc (oid, record))
  = <["id" := VStr (str (VObjectId oid))]> (delete "_id" record).
Proof.
  unfold expose_id, stored_doc. cbn [fst snd].
  by rewrite lookup_insert_eq, delete_insert_eq.
Qed.

Lemma filter_all {A} (P : A → Prop) `{!∀ x, Decision (P x)} (l : list A) :
  (∀ x, x ∈ l → P x) → filter P l = l.
Proof.
  induction l as [|x l IH]; intros Hall; [done|].
  rewrite filter_cons_True by (apply Hall; left).
  f_equal. apply IH. intros y Hy. apply Hall. by right.
Qed.

(** The search handler on a reachable store of the modelled kind. *)
Lemma search_firmware_mem (filters : FirmwareFilter.t) (st : MemStore) :
  outage st = None →
  search_firmware (Return mem_database) filters st
  = (Response
       {| items :=
            expose_id <$>
              take 100 (filter (λ d, build_query filters ⊆ d)
                          (documents st "firmware")) |}, st).
Proof.
  intros Hup. unfold search_firmware, try_503, mbind, act_bind, import_from.
  cbn [get_documents mem_database]. unfold mem_get_documents.
  rewrite Hup. reflexivity.
Qed.

(** C8, as the code has it. On a reachable store the query holds one
    equality for each filter field that is present and not empty (so
    absent and empty fields do not constrain, and without such a field
    every record matches); the handler returns the first 100 matching
    records at most; each returned record has lost the native [_id]
    field, carries it as the string [id], and keeps every other field
    of the stored record. *)
Theorem search_firmware_spec (filters : FirmwareFilter.t) (st : MemStore) :
  outage st = None →
  let query := build_query filters in
  (∀ (k : string) (v : value),
      query !! k = Some v
      ↔ ∃ s, field filters k = Some s ∧ s ≠ "" ∧ v = VStr s)
  ∧ ∃ docs : list dict,
      search_firmware (Return mem_database) filters st
        = (Response {| items := expose_id <$> docs |}, st)
      ∧ docs = take 100 (filter (λ d, query ⊆ d) (documents st "firmware"))
      ∧ length (expose_id <$> docs) ≤ 100
      ∧ (∀ d : dict, d ∈ docs →
           d ∈ documents st "firmware"
           ∧ ∀ (k : string) (v : value),
               query !! k = Some v → d !! k = Some v)
      ∧ ((∀ (k s : string), field filters k = Some s → s = "") →
         docs = take 100 (documents st "firmware"))
      ∧ (∀ item : dict, item ∈ expose_id <$> docs →
           ∃ (oid : string) (record : dict),
             (oid, record) ∈ collections st !!! "firmware"
             ∧ item !! "_id" = None
             ∧ item !! "id" = Some (VStr (str (VObjectId oid)))
             ∧ ∀ k : string, k ≠ "_id" → k ≠ "id" →
                 item !! k = record !! k).
Proof.
  intros Hup query. split; [apply build_query_lookup|].
  exists (take 100 (filter (λ d, query ⊆ d) (documents st "firmware"))).
  split; [by apply search_firmware_mem|]. split; [done|].
  split; [rewrite length_fmap, length_take; lia|].
  split; [|split].
  - intros d Hd. apply subseteq_take, list_elem_of_filter in Hd as [Hq Hd].
    split; [done|]. by apply map_subseteq_spec.
  - intros Hblank. f_equal. apply filter_all. intros d _.
    apply map_subseteq_spec. intros k v Hk.
    apply build_query_lookup in Hk as (s & Hs & Hne & _).
    by apply Hblank in Hs.
  - intros item Hitem.
    apply list_elem_of_fmap in Hitem as (d & -> & Hd).
    apply subseteq_take, list_elem_of_filter in Hd as [_ Hd].
    apply list_elem_of_fmap in Hd as ([oid record] & -> & Hp).
    exists oid, record. split; [done|]. rewrite expose_id_stored.
    split; [|split].
    + by rewrite lookup_insert_ne, lookup_delete_eq.
    + by rewrite lookup_insert_eq.
    + intros k H1 H2. by rewrite lookup_insert_ne, lookup_delete_ne.
Qed.

Lemma try_503_spec {S A} (body : act S A) (st : S) :
  (is_503 (try_503 body st).1 ↔ raises (body st).1)
  ∧ (∀ e, (body st).1 = Raise e →
       (try_503 body st).1 = Raised (service_unavailable e))
  ∧ (∀ a, (body st).1 = Return a → (try_503 body st).1 = Response a)
  ∧ (try_503 body st).2 = (body st).2.
Proof.
  unfold try_503, is_503, raises.
  destruct (body st) as [[a|e] st']; cbn [fst snd].
  - split; [|by repeat split; intros; simplify_eq].
    split; intros [? ?]; discriminate.
  - split; [|by repeat split; intros; simplify_eq].
    split; intros _; eauto.
Qed.

(** A handler body that calls the store and wraps the answer. *)
Lemma bind_call {S A B} (call : act S A) (wrap : A → B) (st : S) :
  (a ← call; mret (wrap a)) st
  = match call st with
    | (Return a, st') => (Return (wrap a), st')
    | (Raise e, st') => (Raise e, st')
    end.
Proof. reflexivity. Qed.

Lemma handler_spec {S A B} (call : act S A) (wrap : A → B) (st : S) :
  let r := try_503 (a ← call; mret (wrap a)) st in
  (is_503 r.1 ↔ raises (call st).1)
  ∧ (∀ e, (call st).1 = Raise e → r.1 = Raised (service_unavailable e))
  ∧ (∀ a, (call st).1 = Return a → r.1 = Response (wrap a))
  ∧ r.2 = (call st).2.
Proof.
  cbv zeta.
  destruct (try_503_spec (a ← call; mret (wrap a)) st)
    as (Hiff & Hraise & Hret & Hst).
  rewrite Hiff, Hst. rewrite bind_call in *. unfold raises.
  destruct (call st) as [[a|e] st']; cbn [fst snd] in *.
  - split; [|by repeat split; intros; simplify_eq; auto].
    split; intros [? ?]; discriminate.
  - split; [|by repeat split; intros; simplify_eq; auto].
    split; intros _; eauto.
Qed.

(** The three handlers are a store call inside [try_503]. *)
Lemma add_firmware_call {S} (database : exc (Database S))
    (item : FirmwareIn.t) (st : S) :
  add_firmware database item st
  = try_503 (fid ← create_call database "firmware"
                     (FirmwareIn.model_dump item);
             mret {| id := fid; status := "saved" |}) st.
Proof. by destruct database. Qed.

Lemma record_consent_call {S} (database : exc (Database S))
    (consent : ConsentIn.t) (st : S) :
  record_consent database consent st
  = try_503 (cid ← create_call database "consent"
                     (ConsentIn.model_dump consent);
             mret {| id := cid; status := "recorded" |}) st.
Proof. by destruct database. Qed.

Lemma search_firmware_call {S} (database : exc (Database S))
    (filters : FirmwareFilter.t) (st : S) :
  search_firmware database filters st
  = try_503 (docs ← get_call database "firmware" (build_query filters) 100;
             mret {| items := expose_id <$> docs |}) st.
Proof. by destruct database. Qed.

(** C9. Each of the three handlers answers 503 exactly when its store
    call (importing the helper and calling it) raises, with the
    exception text in the detail; when the call returns an identifier,
    the add handler answers id and status saved, the consent handler id
    and status recorded; the store is left as one call of the helper on
    the dumped record leaves it. *)
Theorem persistence_unavailable {S} (database : exc (Database S))
    (item : FirmwareIn.t) (consent : ConsentIn.t)
    (filters : FirmwareFilter.t) (st : S) :
  let add := create_call database "firmware" (FirmwareIn.model_dump item) st in
  let rec := create_call database "consent" (ConsentIn.model_dump consent) st in
  let get := get_call database "firmware" (build_query filters) 100 st in
  ((is_503 (add_firmware database item st).1 ↔ raises add.1)
   ∧ (∀ e, add.1 = Raise e →
        (add_firmware database item st).1
        = Raised {| status_code := 503;
                    detail := "Database unavailable: " +:+ e |})
   ∧ (∀ fid, add.1 = Return fid →
        (add_firmware database item st).1
        = Response {| id := fid; status := "saved" |})
   ∧ (add_firmware database item st).2 = add.2)
  ∧ ((is_503 (record_consent database consent st).1 ↔ raises rec.1)
     ∧ (∀ e, rec.1 = Raise e →
          (record_consent database consent st).1
          = Raised {| status_code := 503;
                      detail := "Database unavailable: " +:+ e |})
     ∧ (∀ cid, rec.1 = Return cid →
          (record_consent database consent st).1
          = Response {| id := cid; status := "recorded" |})
     ∧ (record_consent database consent st).2 = rec.2)
  ∧ ((is_503 (search_firmware database filters st).1 ↔ raises get.1)
     ∧ (∀ e, get.1 = Raise e →
          (search_firmware database filters st).1
          = Raised {| status_code := 503;
                      detail := "Database unavailable: " +:+ e |})
     ∧ (∀ docs, get.1 = Return docs →
          (search_firmware database filters st).1
          = Response {| items := expose_id <$> docs |})
     ∧ (search_firmware database filters st).2 = get.2).
Proof.
  cbv zeta.
  rewrite add_firmware_call, record_consent_call, search_firmware_call.
  split; [|split].
  - apply (handler_spec
             (create_call database "firmware" (FirmwareIn.model_dump item))
             (λ fid, {| id := fid; status := "saved" |})).
  - apply (handler_spec
             (create_call database "consent" (ConsentIn.model_dump consent))
             (λ cid, {| id := cid; status := "recorded" |})).
  - apply (handler_spec
             (get_call database "firmware" (build_query filters) 100)
             (λ docs, {| items := expose_id <$> docs |})).
Qed.

(** The handler reads the filter through [build_query] only. *)
Lemma search_firmware_query {S} (database : exc (Database S))
    (f1 f2 : FirmwareFilter.t) (st : S) :
  build_query f1 = build_query f2 →
  search_firmware database f1 st = search_firmware database f2 st.
Proof. intros Hq. rewrite !search_firmware_call. by rewrite Hq. Qed.

(** C10. A filter field holding the empty string is read like an absent
    one: it puts nothing in the query, whatever the other fields are,
    and the handler answers the same on every store; in particular the
    filter with an empty model is answered like the empty filter. *)
Theorem empty_field_is_absent {S} (database : exc (Database S)) (st : S)
    (m so av : option string) :
  let F := λ m so av, {| FirmwareFilter.model := m;
                         FirmwareFilter.soc := so;
                         FirmwareFilter.android_version := av |} in
  (build_query (F (Some "") so av) = build_query (F None so av)
   ∧ build_query (F m (Some "") av) = build_query (F m None av)
   ∧ build_query (F m so (Some "")) = build_query (F m so None))
  ∧ (search_firmware database (F (Some "") so av) st
       = search_firmware database (F None so av) st
     ∧ search_firmware database (F m (Some "") av) st
       = search_firmware database (F m None av) st
     ∧ search_firmware database (F m so (Some "")) st
       = search_firmware database (F m so None) st)
  ∧ (∀ (filters : FirmwareFilter.t) (key : string),
       field filters key = Some "" → build_query filters !! key = None)
  ∧ search_firmware database (F (Some "") None None) st
    = search_firmware database (F None None None) st.
Proof.
  intros F.
  assert (Hq : build_query (F (Some "") so av) = build_query (F None so av)
               ∧ build_query (F m (Some "") av) = build_query (F m None av)
               ∧ build_query (F m so (Some "")) = build_query (F m so None))
    by (repeat split; reflexivity).
  destruct Hq as (Hm & Hs & Ha).
  split; [done|]. split; [|split].
  - by repeat split; apply search_firmware_query.
  - intros filters key Hkey.
    destruct (build_query filters !! key) as [v|] eqn:Hv; [|done].
    apply build_query_lookup in Hv as (s & Hs' & Hne & _).
    rewrite Hkey in Hs'. by injection Hs' as <-.
  - by apply search_firmware_query.
Qed.

(** On a reachable store of the modelled kind the add handler appends
    the dumped record, under a fresh identifier, and answers with it. *)
Lemma add_firmware_mem (item : FirmwareIn.t) (st : MemStore) :
  outage st = None →
  let oid := pretty (next_id st) in
  (add_firmware (Return mem_database) item st).1
    = Response {| id := oid; status := "saved" |}
  ∧ documents (add_firmware (Return mem_database) item st).2 "firmware"
    = documents st "firmware"
        ++ [<["_id" := VObjectId oid]> (FirmwareIn.model_dump item)]
  ∧ outage (add_firmware (Return mem_database) item st).2 = None.
Proof.
  intros Hup oid.
  unfold add_firmware, try_503, mbind, act_bind, import_from, mret, act_ret.
  cbn [create_document mem_database]. unfold mem_create_document.
  rewrite Hup. cbn [fst snd]. split; [reflexivity|].
  split; [|reflexivity].
  unfold documents. cbn [collections].
  by rewrite lookup_total_insert_eq, fmap_app.
Qed.

(** Round trip: a record that was added to a store holding fewer than
    100 firmware records is found by every filter it matches, with all
    its fields and the identifier under [id]. *)
Lemma add_then_search (item : FirmwareIn.t) (filters : FirmwareFilter.t)
    (st : MemStore) :
  outage st = None →
  length (documents st "firmware") < 100 →
  (∀ (k : string) (v : value), build_query filters !! k = Some v →
     FirmwareIn.model_dump item !! k = Some v) →
  ∃ r : Found,
    (search_firmware (Return mem_database) filters
       (add_firmware (Return mem_database) item st).2).1 = Response r
    ∧ <["id" := VStr (str (VObjectId (pretty (next_id st))))]>
        (FirmwareIn.model_dump item) ∈ items r.
Proof.
  intros Hup Hlen Hmatch.
  destruct (add_firmware_mem item st Hup) as (_ & Hdocs & Hup').
  rewrite (search_firmware_mem _ _ Hup'). eexists. split; [reflexivity|].
  cbn [items]. rewrite Hdocs.
  set (new := <["_id" := VObjectId (pretty (next_id st))]>
                (FirmwareIn.model_dump item)).
  assert (Hnew : build_query filters ⊆ new).
  { apply map_subseteq_spec. intros k v Hk.
    assert (k ≠ "_id").
    { intros ->. apply Hmatch in Hk. discriminate. }
    unfold new. rewrite lookup_insert_ne by done. by apply Hmatch. }
  rewrite filter_app, filter_cons_True, filter_nil by done.
  rewrite take_ge.
  - rewrite fmap_app. apply elem_of_app. right. cbn.
    apply list_elem_of_singleton.
    change new with (stored_doc (pretty (next_id st),
                                 FirmwareIn.model_dump item)).
    rewrite expose_id_stored. reflexivity.
  - rewrite length_app. cbn.
    pose proof (length_filter (λ d, build_query filters ⊆ d)
                  (documents st "firmware")). lia.
Qed.

End CatalogProperties.

(** A run of C8 on a store with one record, searched by its model. *)
Lemma search_firmware_spec_witness :
  ∃ docs : list Py.dict,
    Catalog.search_firmware (H := PyAscii.builtins)
      (Py.Return Catalog.mem_database) Samples.by_model Samples.one_record
    = (Response {| Catalog.items :=
                     Catalog.expose_id (H := PyAscii.builtins) <$> docs |},
       Samples.one_record)
    ∧ length (Catalog.expose_id (H := PyAscii.builtins) <$> docs) ≤ 100.
Proof.
  destruct (search_firmware_spec (H := PyAscii.builtins)
              Samples.by_model Samples.one_record)
    as (_ & docs & Hrun & _ & Hlen & _).
  - reflexivity.
  - exists docs. split; [exact Hrun | exact Hlen].
Defined.

(** C8 as worded fails: a request whose model is the empty string has the
    field present, yet the query built is not the one with an equality on
    it, and the search returns a record whose model is not empty. *)
Lemma search_empty_model_unconstrained :
  Catalog.build_query Samples.empty_model
    ≠ CatalogSpec.query_of_present Samples.empty_model
  ∧ ∃ r : Catalog.Found,
      (Catalog.search_firmware (H := PyAscii.builtins)
         (Py.Return Catalog.mem_database)
         Samples.empty_model Samples.one_record).1 = Response r
      ∧ ∃ item : Py.dict,
          item ∈ Catalog.items r
          ∧ item !! "model" = Some (Py.VStr "Pixel 9 Pro").
Proof.
  split.
  - intros Heq. apply (f_equal (λ q : Py.dict, q !! "model")) in Heq.
    vm_compute in Heq. discriminate.
  - rewrite (search_firmware_mem (H := PyAscii.builtins)) by reflexivity.
    eexists. split; [reflexivity|]. cbn [Catalog.items].
    exists (Catalog.expose_id (H := PyAscii.builtins)
              (Catalog.stored_doc
                 ("0", Catalog.FirmwareIn.model_dump Samples.pixel))).
    split; [|by vm_compute].
    apply list_elem_of_fmap_2.
    assert (Hdocs :
      take 100 (filter (λ d, Catalog.build_query Samples.empty_model ⊆ d)
                  (Catalog.documents Samples.one_record "firmware"))
      = [Catalog.stored_doc
           ("0", Catalog.FirmwareIn.model_dump Samples.pixel)])
      by (vm_compute; reflexivity).
    rewrite Hdocs. by left.
Qed.


(* ===================================================================== *)
(** * More on the wizard advisor                                          *)
(* ===================================================================== *)

Section WizardOutcomes.
Import Py Wizard Derived.
Context `{Builtins}.

(** The five ways through the handler. *)
Lemma wizard_steps_cases (req : WizardRequest) :
  let s := lower (soc req) in
  let m := lower (method req) in
  ((s ∉ supported_socs) ∧ wizard_steps req = Raised unsupported_soc)
  ∨ (s ∈ supported_socs ∧ m = "fastboot"
     ∧ wizard_steps req = Response (reply req fastboot_steps))
  ∨ (s ∈ supported_socs ∧ m ≠ "fastboot" ∧ m ∈ odin_methods ∧ s = "exynos"
     ∧ wizard_steps req = Response (reply req odin_steps))
  ∨ (s ∈ supported_socs ∧ m = "adb_sideload"
     ∧ wizard_steps req = Response (reply req sideload_steps))
  ∨ (s ∈ supported_socs ∧ m ≠ "fastboot" ∧ ¬ (m ∈ odin_methods ∧ s = "exynos")
     ∧ m ≠ "adb_sideload" ∧ wizard_steps req = Raised unsupported_method).
Proof.
  cbv zeta. rewrite wizard_steps_eq. unfold reply.
  destruct (decide (lower (soc req) ∈ supported_socs)) as [Hs|Hs].
  2:{ left. by rewrite bool_decide_eq_false_2. }
  right. rewrite (bool_decide_eq_true_2 _ Hs).
  destruct (decide (lower (method req) = "fastboot")) as [Hf|Hf].
  { left. by rewrite Hf, select_fastboot. }
  right.
  destruct (decide (lower (method req) ∈ odin_methods
                    ∧ lower (soc req) = "exynos")) as [[Ho He]|Ho].
  { left.
    assert (Hsel : select_steps (lower (soc req)) (lower (method req))
                   = Response odin_steps)
      by (rewrite He; by apply select_odin).
    by rewrite Hsel. }
  right.
  destruct (decide (lower (method req) = "adb_sideload")) as [Ha|Ha].
  { left. by rewrite Ha, select_sideload. }
  right. by rewrite select_unsupported.
Qed.

Lemma step_lists_distinct :
  fastboot_steps ≠ odin_steps ∧ fastboot_steps ≠ sideload_steps
  ∧ odin_steps ≠ sideload_steps.
Proof. repeat split; discriminate. Qed.

(** X1. A response of the wizard carries the lower-cased soc, one of the
    three supported, the lower-cased method, one of the four known, the
    model and version of the request, the constant disclaimer, and
    between six and eight steps. *)
Theorem wizard_response_shape (req : WizardRequest) (r : WizardResponse) :
  wizard_steps req = Response r →
  resp_soc r = lower (soc req)
  ∧ (resp_soc r = "qualcomm" ∨ resp_soc r = "mtk" ∨ resp_soc r = "exynos")
  ∧ resp_method r = lower (method req)
  ∧ (resp_method r = "fastboot" ∨ resp_method r = "odin"
     ∨ resp_method r = "oneui_recovery" ∨ resp_method r = "adb_sideload")
  ∧ resp_model r = model req
  ∧ resp_android_version r = android_version req
  ∧ disclaimer r = disclaimer_text
  ∧ 6 ≤ length (steps r) ∧ length (steps r) ≤ 8.
Proof.
  intros Hr.
  destruct (wizard_steps_cases req)
    as [[_ E]|[(Hs & Hm & E)|[(Hs & _ & Hm & _ & E)|[(Hs & Hm & E)|(_ & _ & _ & _ & E)]]]];
    rewrite E in Hr; [discriminate| | | |discriminate];
    injection Hr as <-; apply supported_socs_spec in Hs;
    cbn [reply resp_soc resp_method resp_model resp_android_version
           steps disclaimer];
    (split; [reflexivity|]); (split; [exact Hs|]); (split; [reflexivity|]);
    (split; [|by repeat split; cbn; lia]).
  - by left.
  - apply odin_methods_spec in Hm as [Hm|Hm]; rewrite Hm; auto.
  - by do 3 right.
Qed.

(** X2. The step list of a response tells the flow: the fastboot list is
    returned exactly for the method fastboot, the Odin list exactly for
    odin or oneui_recovery on exynos, the sideload list exactly for
    adb_sideload. In particular Odin steps are never given for a soc
    other than exynos. *)
Theorem wizard_steps_identify_flow (req : WizardRequest) (r : WizardResponse) :
  wizard_steps req = Response r →
  (steps r = fastboot_steps ↔ lower (method req) = "fastboot")
  ∧ (steps r = odin_steps
     ↔ (lower (method req) = "odin" ∨ lower (method req) = "oneui_recovery")
       ∧ lower (soc req) = "exynos")
  ∧ (steps r = sideload_steps ↔ lower (method req) = "adb_sideload").
Proof.
  intros Hr. destruct step_lists_distinct as (D1 & D2 & D3).
  rewrite <- odin_methods_spec.
  assert (Hns : "adb_sideload" ∉ odin_methods).
  { rewrite odin_methods_spec. by intros [|]. }
  assert (Hnf : "fastboot" ∉ odin_methods).
  { rewrite odin_methods_spec. by intros [|]. }
  destruct (wizard_steps_cases req)
    as [[_ E]|[(Hs & Hm & E)|[(Hs & Hf & Hm & He & E)|[(Hs & Hm & E)|(_ & _ & _ & _ & E)]]]];
    rewrite E in Hr; simplify_eq; cbn [steps reply].
  - rewrite Hm. repeat split; try done. by intros [? _].
  - repeat split; try done. intros Heq. by rewrite Heq in Hm.
  - rewrite Hm. repeat split; try done; try discriminate;
      try (by intros [? _]); by intros ?%symmetry.
Qed.

(** X3. Every error of the wizard is a 400; "Unsupported SoC" is raised
    exactly for a soc outside the three, and "Unsupported method for
    selected SoC" only once the soc has been accepted. *)
Theorem wizard_errors (req : WizardRequest) (e : HTTPException) :
  wizard_steps req = Raised e →
  status_code e = 400%Z
  ∧ ((detail e = "Unsupported SoC"
      ∧ ¬ (lower (soc req) = "qualcomm" ∨ lower (soc req) = "mtk"
           ∨ lower (soc req) = "exynos"))
     ∨ (detail e = "Unsupported method for selected SoC"
        ∧ (lower (soc req) = "qualcomm" ∨ lower (soc req) = "mtk"
           ∨ lower (soc req) = "exynos")
        ∧ lower (method req) ≠ "fastboot"
        ∧ lower (method req) ≠ "adb_sideload"
        ∧ ¬ ((lower (method req) = "odin"
              ∨ lower (method req) = "oneui_recovery")
             ∧ lower (soc req) = "exynos"))).
Proof.
  intros Hr. rewrite <- odin_methods_spec, <- supported_socs_spec.
  destruct (wizard_steps_cases req)
    as [[Hs E]|[(Hs & Hm & E)|[(Hs & Hf & Hm & He & E)|[(Hs & Hm & E)|(Hs & Hf & Ho & Ha & E)]]]];
    rewrite E in Hr; simplify_eq; (split; [done|]).
  - by left.
  - by right.
Qed.

(** X4. Asking again with the soc and method a response carries gives the
    same response, provided lower-casing leaves those two unchanged. *)
Theorem wizard_response_fixed_point (req : WizardRequest) (r : WizardResponse) :
  wizard_steps req = Response r →
  lower (resp_soc r) = resp_soc r →
  lower (resp_method r) = resp_method r →
  wizard_steps {| soc := resp_soc r; method := resp_method r;
                  model := resp_model r;
                  android_version := resp_android_version r |}
  = Response r.
Proof.
  intros Hr Hs Hm. rewrite wizard_steps_eq. cbn [soc method model android_version].
  rewrite Hs, Hm. rewrite wizard_steps_eq in Hr.
  destruct (bool_decide (lower (soc req) ∈ supported_socs)) eqn:Hin;
    [|discriminate].
  destruct (select_steps (lower (soc req)) (lower (method req))) as [l|]
    eqn:Hsel; [|discriminate].
  cbn in Hr. injection Hr as <-. cbn. by rewrite Hin, Hsel.
Qed.

End WizardOutcomes.

(** A run of X1 on the request ("Exynos", "ODIN"). *)
Lemma wizard_response_shape_witness :
  Wizard.resp_soc MoreSamples.odin_response = "exynos"
  ∧ Wizard.resp_method MoreSamples.odin_response = "odin"
  ∧ length (Wizard.steps MoreSamples.odin_response) ≤ 8.
Proof.
  destruct (wizard_response_shape (H := PyAscii.builtins)
              MoreSamples.odin_request MoreSamples.odin_response)
    as (Hs & _ & Hm & _ & _ & _ & _ & _ & Hl).
  - reflexivity.
  - split; [exact Hs|]. split; [exact Hm|exact Hl].
Defined.

(** A run of X2 on the same request: the Odin list, on exynos. *)
Lemma wizard_steps_identify_flow_witness :
  Wizard.steps MoreSamples.odin_response = Wizard.odin_steps
  ↔ (PyAscii.lower "ODIN" = "odin" ∨ PyAscii.lower "ODIN" = "oneui_recovery")
    ∧ PyAscii.lower "Exynos" = "exynos".
Proof.
  destruct (wizard_steps_identify_flow (H := PyAscii.builtins)
              MoreSamples.odin_request MoreSamples.odin_response)
    as (_ & Ho & _).
  - reflexivity.
  - exact Ho.
Defined.

(** A run of X3 on the request ("exynos", "flashtool"). *)
Lemma wizard_errors_witness :
  status_code Wizard.unsupported_method = 400%Z.
Proof.
  destruct (wizard_errors (H := PyAscii.builtins)
              MoreSamples.flashtool_request Wizard.unsupported_method)
    as [Hc _].
  - reflexivity.
  - exact Hc.
Defined.

(** A run of X4: the answer to ("Exynos", "ODIN") is also the answer to
    ("exynos", "odin"). *)
Lemma wizard_response_fixed_point_witness :
  Wizard.wizard_steps (H := PyAscii.builtins)
    {| Wizard.soc := "exynos"; Wizard.method := "odin";
       Wizard.model := Some "SM-S921B";
       Wizard.android_version := Some "14" |}
  = Response MoreSamples.odin_response.
Proof.
  apply (wizard_response_fixed_point (H := PyAscii.builtins)
           MoreSamples.odin_request MoreSamples.odin_response);
    reflexivity.
Defined.

(* ===================================================================== *)
(** * More on the device probe                                            *)
(* ===================================================================== *)

Section AdbOutcomes.
Import Py Adb Derived.
Context `{Builtins}.
Variable h : Host.

(** The probe on a host where [which] finds nothing usable. *)
Lemma probe_falsy :
  truthy_opt (which h "adb") = false →
  probe h = ({| adb_available := false; adb_path := which h "adb";
                devices := []; errors := [];
                devices_raw := None; props := None |}, []).
Proof.
  intros Hf. unfold probe, adb_info. rewrite Hf. reflexivity.
Qed.

Lemma truthy_path (adb : string) :
  truthy_opt (Some adb) = false ∨ adb ≠ "".
Proof.
  cbn. unfold truthy. case_bool_decide; [by right|by left].
Qed.


(** X5. Whatever the host answers, the probe runs at most nine commands,
    each with the executable [which] returned, and each one of: the
    device listing, the bulk getprop, a getprop of one of the seven
    keys. It runs nothing that changes a device. *)
Theorem probe_runs_read_only_commands :
  length (probe h).2 ≤ 9
  ∧ Forall (λ cmd, ∃ adb, which h "adb" = Some adb ∧ read_only adb cmd)
      (probe h).2.
Proof.
  destruct (which h "adb") as [adb|] eqn:Hw.
  2:{ rewrite probe_falsy by by rewrite Hw. cbn. split; [lia|done]. }
  destruct (truthy_path adb) as [Hf|Hne].
  { rewrite probe_falsy by by rewrite Hw. cbn. split; [lia|done]. }
  assert (Hl : read_only adb [adb; "devices"; "-l"]) by by left.
  assert (Hg : read_only adb [adb; "shell"; "getprop"]) by (right; by left).
  rewrite (probe_present h adb Hw Hne). cbv zeta.
  case_bool_decide.
  { cbn. split; [lia|]. apply Forall_singleton. eauto. }
  destruct (run h [[adb; "devices"; "-l"]] [adb; "shell"; "getprop"]).
  2:{ cbn. split; [lia|]. repeat apply Forall_cons_2; eauto. }
  destruct (query_props_spec h adb prop_keys prop_keys_NoDup ∅ (preamble adb))
    as (p & Hrun & _). rewrite Hrun. cbn [snd].
  split; [rewrite length_app, length_fmap; cbn; lia|].
  apply Forall_app. split; [repeat apply Forall_cons_2; eauto|].
  apply Forall_fmap, Forall_forall. intros key Hkey. cbn.
  exists adb. split; [done|]. right; right. eauto.
Qed.

(** X6. When the device listing raises, the probe still returns: no
    device, the message as the only error, no raw listing, an empty props
    map, and nothing run after the listing. *)
Theorem probe_listing_failure (adb e : string) :
  which h "adb" = Some adb → adb ≠ "" →
  run h [] [adb; "devices"; "-l"] = Raise e →
  probe h = ({| adb_available := true; adb_path := Some adb;
                devices := []; errors := [e];
                devices_raw := None; props := Some ∅ |},
             [[adb; "devices"; "-l"]]).
Proof.
  intros Hw Hne Hl. rewrite (probe_present h adb Hw Hne). cbv zeta.
  rewrite Hl. reflexivity.
Qed.

(** X7. When devices are listed and the bulk getprop raises, none of the
    seven properties is queried: props is the empty map (not seven
    nulls), the message is the only error, and the devices are still
    reported. *)
Theorem probe_shell_failure (adb e : string) (cp : CompletedProcess) :
  which h "adb" = Some adb → adb ≠ "" →
  run h [] [adb; "devices"; "-l"] = Return cp →
  listed_devices (stdout cp) ≠ [] →
  run h [[adb; "devices"; "-l"]] [adb; "shell"; "getprop"] = Raise e →
  probe h = ({| adb_available := true; adb_path := Some adb;
                devices := listed_devices (stdout cp); errors := [e];
                devices_raw := Some (stdout cp); props := Some ∅ |},
             preamble adb).
Proof.
  intros Hw Hne Hl Hd Hg. rewrite (probe_present h adb Hw Hne). cbv zeta.
  rewrite Hl, Hg. cbn [set_listing devices app].
  rewrite (bool_decide_eq_false_2 _ Hd). reflexivity.
Qed.

(** X8. On every host the result holds at most one error, and when it
    holds one the props map is empty; the props key is present exactly
    when adb is available; devices are reported only together with the
    raw listing. *)
Theorem probe_result_invariant :
  length (errors (probe h).1) ≤ 1
  ∧ (errors (probe h).1 ≠ [] → props (probe h).1 = Some ∅)
  ∧ (is_Some (props (probe h).1) ↔ adb_available (probe h).1 = true)
  ∧ (devices (probe h).1 ≠ [] → is_Some (devices_raw (probe h).1)).
Proof.
  destruct (which h "adb") as [adb|] eqn:Hw.
  2:{ rewrite probe_falsy by by rewrite Hw. cbn.
      split; [lia|]. split; [done|]. split; [|done].
      split; [by intros [? ?]|done]. }
  destruct (truthy_path adb) as [Hf|Hne].
  { rewrite probe_falsy by by rewrite Hw. cbn.
    split; [lia|]. split; [done|]. split; [|done].
    split; [by intros [? ?]|done]. }
  rewrite (probe_present h adb Hw Hne). cbv zeta.
  destruct (run h [] [adb; "devices"; "-l"]) as [cp|e].
  - cbn [set_listing devices app]. case_bool_decide as Hd.
    { cbn. rewrite Hd. split; [lia|]. by eauto. }
    destruct (run h [[adb; "devices"; "-l"]] [adb; "shell"; "getprop"]).
    + cbn. split; [lia|]. split; [done|]. by eauto.
    + cbn. split; [lia|]. by eauto.
  - cbn. split; [lia|]. split; [done|]. split; [by eauto|done].
Qed.

(** X9. The props map is all or nothing: it is empty or it has exactly
    the seven keys, and it has them only when a device is listed and
    nothing was added to the errors. *)
Theorem probe_props_all_or_nothing (p : props_map) :
  props (probe h).1 = Some p →
  p = ∅
  ∨ ((∀ k : string, is_Some (p !! k) ↔ k ∈ prop_keys)
     ∧ devices (probe h).1 ≠ [] ∧ errors (probe h).1 = []).
Proof.
  destruct (which h "adb") as [adb|] eqn:Hw.
  2:{ rewrite probe_falsy by by rewrite Hw. discriminate. }
  destruct (truthy_path adb) as [Hf|Hne].
  { rewrite probe_falsy by by rewrite Hw. discriminate. }
  rewrite (probe_present h adb Hw Hne). cbv zeta.
  case_bool_decide as Hd.
  { cbn. intros [= <-]. by left. }
  destruct (run h [] [adb; "devices"; "-l"]) as [cp|e]; [|done].
  destruct (run h [[adb; "devices"; "-l"]] [adb; "shell"; "getprop"]).
  2:{ cbn. intros [= <-]. by left. }
  destruct (query_props_spec h adb prop_keys prop_keys_NoDup ∅ (preamble adb))
    as (q & Hrun & Hin & Hout). rewrite Hrun. cbn. intros [= <-].
  right. split; [|done]. intros k. split.
  - intros Hk. destruct (decide (k ∈ prop_keys)) as [|Hnk]; [done|].
    rewrite (Hout k Hnk), lookup_empty in Hk. by destruct Hk.
  - intros Hk. apply list_elem_of_lookup in Hk as [i Hi].
    rewrite (Hin i k Hi). eauto.
Qed.


End AdbOutcomes.

(** A run of X6 on a host whose adb cannot be started. *)
Lemma probe_listing_failure_witness :
  Adb.probe (H := PyAscii.builtins) MoreSamples.deaf_host
  = ({| Adb.adb_available := true; Adb.adb_path := Some Samples.adb;
        Adb.devices := []; Adb.errors := ["[Errno 13] Permission denied"];
        Adb.devices_raw := None; Adb.props := Some ∅ |},
     [[Samples.adb; "devices"; "-l"]]).
Proof.
  apply (probe_listing_failure (H := PyAscii.builtins) MoreSamples.deaf_host).
  - reflexivity.
  - discriminate.
  - reflexivity.
Defined.

(** A run of X7 on a host with one device where [adb shell] times out. *)
Lemma probe_shell_failure_witness :
  Adb.props (Adb.probe (H := PyAscii.builtins) MoreSamples.mute_host).1
  = Some ∅
  ∧ Adb.errors (Adb.probe (H := PyAscii.builtins) MoreSamples.mute_host).1
    = ["Command timed out after 5 seconds"]
  ∧ Adb.devices (Adb.probe (H := PyAscii.builtins) MoreSamples.mute_host).1
    = ["emulator-5554 offline"].
Proof.
  rewrite (probe_shell_failure (H := PyAscii.builtins) MoreSamples.mute_host
             Samples.adb "Command timed out after 5 seconds"
             {| Adb.returncode := 0;
                Adb.stdout := "List of devices attached" +:+ Samples.LF
                  +:+ "emulator-5554 offline" +:+ Samples.LF;
                Adb.stderr := "" |}).
  - repeat split; reflexivity.
  - reflexivity.
  - discriminate.
  - reflexivity.
  - discriminate.
  - reflexivity.
Defined.

(** A run of X9 on the host where one query times out: the props map has
    the seven keys. *)
Lemma probe_props_all_or_nothing_witness :
  ∃ p : Adb.props_map,
    Adb.props (Adb.probe (H := PyAscii.builtins) Samples.flaky_host).1 = Some p
    ∧ (p = ∅
       ∨ ((∀ k : string, is_Some (p !! k) ↔ k ∈ Adb.prop_keys)
          ∧ Adb.devices (Adb.probe (H := PyAscii.builtins)
                           Samples.flaky_host).1 ≠ []
          ∧ Adb.errors (Adb.probe (H := PyAscii.builtins)
                          Samples.flaky_host).1 = [])).
Proof.
  exists (default ∅ (Adb.props (Adb.probe (H := PyAscii.builtins)
                                  Samples.flaky_host).1)).
  split; [vm_compute; reflexivity|].
  apply (probe_props_all_or_nothing (H := PyAscii.builtins)).
  vm_compute. reflexivity.
Defined.

(* ===================================================================== *)
(** * More on the firmware catalog                                        *)
(* ===================================================================== *)

Section CatalogOutcomes.
Import Py Catalog CatalogSpec Derived.
Context `{Builtins}.

Lemma constrain_drop_blank (key : string) (f : option string) (q : dict) :
  constrain key f q
  = match drop_blank f with
    | Some s => <[key := VStr s]> q
    | None => q
    end.
Proof.
  unfold constrain, drop_blank.
  destruct (truthy_opt f) eqn:Hf; [|done].
  by apply truthy_opt_spec in Hf as (s & -> & _).
Qed.

Lemma of_opt_inj (a b : option string) : of_opt a = of_opt b → a = b.
Proof. destruct a, b; cbn; congruence. Qed.

Lemma expose_id_no_native (d : dict) : expose_id d !! "_id" = None.
Proof.
  unfold expose_id. destruct (d !! "_id") eqn:E; [|done].
  by rewrite lookup_insert_ne, lookup_delete_eq.
Qed.

(** X11. Translating the identifier never leaves a native [_id] field,
    and translating twice is translating once. *)
Theorem expose_id_idempotent (d : dict) :
  expose_id d !! "_id" = None
  ∧ expose_id (expose_id d) = expose_id d.
Proof.
  split; [apply expose_id_no_native|].
  unfold expose_id at 1. by rewrite expose_id_no_native.
Qed.

(** X12. A document without [_id] is returned as it is, its own [id]
    field included. A document with [_id] gets [id] set to the text of
    the native identifier, which replaces an [id] field the document may
    have had; every other field is kept. *)
Theorem expose_id_fields (d : dict) :
  (d !! "_id" = None → expose_id d = d)
  ∧ (∀ v : value, d !! "_id" = Some v →
       expose_id d !! "id" = Some (VStr (str v)))
  ∧ (∀ k : string, k ≠ "_id" → k ≠ "id" → expose_id d !! k = d !! k).
Proof.
  unfold expose_id. split; [by intros ->|]. split.
  - intros v ->. by rewrite lookup_insert_eq.
  - intros k H1 H2. destruct (d !! "_id"); [|done].
    by rewrite lookup_insert_ne, lookup_delete_ne.
Qed.

(** X13. Whatever the store returns, a successful search hands back one
    item per document of the store's answer and no item has a native
    [_id] field. *)
Theorem search_never_exposes_native_id {S} (database : exc (Database S))
    (filters : FirmwareFilter.t) (st : S) (r : Found) :
  (search_firmware database filters st).1 = Response r →
  Forall (λ item : dict, item !! "_id" = None) (items r)
  ∧ ∃ docs : list dict,
      (get_call database "firmware" (build_query filters) 100 st).1
        = Return docs
      ∧ length (items r) = length docs.
Proof.
  rewrite search_firmware_call. unfold try_503. rewrite bind_call.
  destruct (get_call database "firmware" (build_query filters) 100 st)
    as [[docs|e] st']; cbn; [|discriminate].
  intros [= <-]. cbn. split.
  - apply Forall_fmap, Forall_forall. intros d _. cbn.
    apply expose_id_no_native.
  - exists docs. by rewrite length_fmap.
Qed.

(** X14. Two filters build the same query exactly when they agree on
    every field once empty strings are read as absent. *)
Theorem build_query_injective (f1 f2 : FirmwareFilter.t) :
  build_query f1 = build_query f2
  ↔ drop_blank (FirmwareFilter.model f1) = drop_blank (FirmwareFilter.model f2)
    ∧ drop_blank (FirmwareFilter.soc f1) = drop_blank (FirmwareFilter.soc f2)
    ∧ drop_blank (FirmwareFilter.android_version f1)
      = drop_blank (FirmwareFilter.android_version f2).
Proof.
  unfold build_query. rewrite !constrain_drop_blank. split.
  - intros Heq.
    pose proof (f_equal (λ q : dict, q !! "model") Heq) as Hm.
    pose proof (f_equal (λ q : dict, q !! "soc") Heq) as Hs.
    pose proof (f_equal (λ q : dict, q !! "android_version") Heq) as Ha.
    clear Heq.
    destruct (drop_blank (FirmwareFilter.model f1)),
      (drop_blank (FirmwareFilter.model f2)),
      (drop_blank (FirmwareFilter.soc f1)),
      (drop_blank (FirmwareFilter.soc f2)),
      (drop_blank (FirmwareFilter.android_version f1)),
      (drop_blank (FirmwareFilter.android_version f2));
      vm_compute in Hm, Hs, Ha; by simplify_eq.
  - by intros (-> & -> & ->).
Qed.

(** X15. A dumped firmware record that comes back from the store under a
    native identifier is returned with [id] set to the identifier's text,
    without [_id], and with its nine fields unchanged. *)
Theorem firmware_record_comes_back_intact (item : FirmwareIn.t) (v : value) :
  let out := expose_id (<["_id" := v]> (FirmwareIn.model_dump item)) in
  out = <["id" := VStr (str v)]> (FirmwareIn.model_dump item)
  ∧ out !! "_id" = None
  ∧ (∀ k : string, k ≠ "id" → out !! k = FirmwareIn.model_dump item !! k)
  ∧ size (FirmwareIn.model_dump item) = 9.
Proof.
  cbv zeta.
  assert (Hout : expose_id (<["_id" := v]> (FirmwareIn.model_dump item))
                 = <["id" := VStr (str v)]> (FirmwareIn.model_dump item)).
  { unfold expose_id. rewrite lookup_insert_eq, delete_insert_eq.
    by rewrite delete_id. }
  rewrite Hout. split; [done|]. split; [done|]. split.
  - intros k Hk. by rewrite lookup_insert_ne.
  - reflexivity.
Qed.

(** X16. Dumping loses nothing: two firmware records, or two consent
    records, with the same dump are the same record. *)
Theorem model_dump_injective :
  (∀ x y : FirmwareIn.t,
      FirmwareIn.model_dump x = FirmwareIn.model_dump y → x = y)
  ∧ (∀ x y : ConsentIn.t,
       ConsentIn.model_dump x = ConsentIn.model_dump y → x = y).
Proof.
  split.
  - intros [a1 a2 a3 a4 a5 a6 a7 a8 a9] [b1 b2 b3 b4 b5 b6 b7 b8 b9] Heq.
    pose proof (f_equal (λ q : dict, q !! "soc") Heq) as H1.
    pose proof (f_equal (λ q : dict, q !! "oem") Heq) as H2.
    pose proof (f_equal (λ q : dict, q !! "model") Heq) as H3.
    pose proof (f_equal (λ q : dict, q !! "android_version") Heq) as H4.
    pose proof (f_equal (λ q : dict, q !! "build_number") Heq) as H5.
    pose proof (f_equal (λ q : dict, q !! "channel") Heq) as H6.
    pose proof (f_equal (λ q : dict, q !! "url") Heq) as H7.
    pose proof (f_equal (λ q : dict, q !! "checksum_sha256") Heq) as H8.
    pose proof (f_equal (λ q : dict, q !! "notes") Heq) as H9.
    clear Heq. vm_compute in H1, H2, H3, H4, H5, H6, H7, H8, H9.
    assert (a1 = b1) as -> by congruence.
    assert (a2 = b2) as -> by congruence.
    assert (a3 = b3) as -> by congruence.
    assert (a4 = b4) as -> by congruence.
    assert (a5 = b5) as -> by (apply of_opt_inj; vm_compute; congruence).
    assert (a6 = b6) as -> by (apply of_opt_inj; vm_compute; congruence).
    assert (a7 = b7) as -> by (apply of_opt_inj; vm_compute; congruence).
    assert (a8 = b8) as -> by (apply of_opt_inj; vm_compute; congruence).
    assert (a9 = b9) as -> by (apply of_opt_inj; vm_compute; congruence).
    reflexivity.
  - intros [a1 a2 a3 a4 a5 a6] [b1 b2 b3 b4 b5 b6] Heq.
    pose proof (f_equal (λ q : dict, q !! "customer_name") Heq) as H1.
    pose proof (f_equal (λ q : dict, q !! "device_model") Heq) as H2.
    pose proof (f_equal (λ q : dict, q !! "android_version") Heq) as H3.
    pose proof (f_equal (λ q : dict, q !! "operations") Heq) as H4.
    pose proof (f_equal (λ q : dict, q !! "checklist_confirmed") Heq) as H5.
    pose proof (f_equal (λ q : dict, q !! "signature") Heq) as H6.
    clear Heq. vm_compute in H1, H2, H3, H4, H5, H6.
    assert (a1 = b1) as -> by congruence.
    assert (a2 = b2) as -> by congruence.
    assert (a3 = b3) as -> by (apply of_opt_inj; vm_compute; congruence).
    assert (a4 = b4) as -> by congruence.
    assert (a5 = b5) as -> by congruence.
    assert (a6 = b6) as -> by (apply of_opt_inj; vm_compute; congruence).
    reflexivity.
Qed.

End CatalogOutcomes.

(** A run of X13 on the store with one record, searched by its model. *)
Lemma search_never_exposes_native_id_witness :
  Forall (λ item : Py.dict, item !! "_id" = None)
    [Catalog.expose_id (H := PyAscii.builtins)
       (Catalog.stored_doc
          ("0", Catalog.FirmwareIn.model_dump Samples.pixel))].
Proof.
  apply (search_never_exposes_native_id (H := PyAscii.builtins)
           (Py.Return Catalog.mem_database) Samples.by_model
           Samples.one_record
           {| Catalog.items :=
                [Catalog.expose_id (H := PyAscii.builtins)
                   (Catalog.stored_doc
                      ("0", Catalog.FirmwareIn.model_dump Samples.pixel))] |}).
  vm_compute. reflexivity.
Defined.

(* ===================================================================== *)
(** * Properties of the database self-test                                *)
(* ===================================================================== *)

Section HealthProperties.
Import Py Health Derived.
Context `{Slicing}.

(** The seven ways through the handler's [try] block. *)
Ltac health_cases e :=
  destruct e as [imp env];
  destruct imp as [[[nm lc]|]|imsg|omsg];
  [destruct nm as [|v|nmsg]; [destruct lc as [cs|lmsg]
                             |destruct lc as [cs|lmsg]|]| | |].

Lemma connected_spec (e : Env) :
  connected e
  ↔ match import_db e with
    | Imported (Some db) =>
        match name db with Fails _ => False | _ => True end
    | _ => False
    end.
Proof.
  unfold connected, reads_name. split.
  - intros (db & -> & Hn). destruct (name db) as [| |msg]; [done..|].
    by destruct (Hn msg).
  - destruct (import_db e) as [[db|]| |]; try done.
    intros Hn. exists db. split; [done|]. intros msg Hmsg.
    by rewrite Hmsg in Hn.
Qed.

Lemma working_spec (e : Env) :
  working e
  ↔ match import_db e with
    | Imported (Some db) =>
        match name db, list_collection_names db with
        | Fails _, _ => False
        | _, Return _ => True
        | _, Raise _ => False
        end
    | _ => False
    end.
Proof.
  unfold working, reads_name. split.
  - intros (db & cs & -> & Hn & ->).
    destruct (name db) as [| |msg]; [done..|]. by destruct (Hn msg).
  - destruct (import_db e) as [[db|]| |]; try done.
    destruct (name db) as [| |msg] eqn:Hn;
      destruct (list_collection_names db) as [cs|] eqn:Hl; try done;
      intros _; exists db, cs; by rewrite Hn.
Qed.

(** X17. The self-test reports at most ten collections: the first ten of
    what the database listed, and none unless the database object was
    imported, named and listed without an exception. *)
Theorem test_database_collections (e : Env) :
  ∃ cs : list string,
    test_database e !! "collections" = Some (VList cs)
    ∧ length cs ≤ 10
    ∧ (cs ≠ [] → working e)
    ∧ (∀ db all, import_db e = Imported (Some db) → reads_name db →
         list_collection_names db = Return all → cs = take 10 all).
Proof.
  pose proof (working_spec e) as Hw. unfold reads_name.
  health_cases e; cbn in Hw.
  1,3: exists (take 10 cs); split; [reflexivity|];
       split; [rewrite length_take; lia|]; split; [by intros; apply Hw|];
       by intros db all [= <-] _ [= <-].
  all: exists []; split; [reflexivity|]; split; [cbn; lia|];
       split; [done|]; intros db all ? Hn ?; simplify_eq/=;
       try done; by destruct (Hn nmsg).
Qed.

(** X18. The two flags say only whether the variable is set to a
    non-empty value: they are one of the two fixed texts, and two
    environments with the same import outcome and the same two truth
    values get the same response, so the values themselves never show. *)
Theorem test_database_env_flags (e : Env) :
  test_database e !! "database_url"
    = Some (VStr (if truthy_opt (getenv e "DATABASE_URL")
                  then "✅ Set" else "❌ Not Set"))
  ∧ test_database e !! "database_name"
    = Some (VStr (if truthy_opt (getenv e "DATABASE_NAME")
                  then "✅ Set" else "❌ Not Set"))
  ∧ ∀ e' : Env,
      import_db e' = import_db e →
      truthy_opt (getenv e' "DATABASE_URL")
        = truthy_opt (getenv e "DATABASE_URL") →
      truthy_opt (getenv e' "DATABASE_NAME")
        = truthy_opt (getenv e "DATABASE_NAME") →
      test_database e' = test_database e.
Proof.
  split; [|split].
  - unfold test_database, set_flag.
    rewrite lookup_insert_ne, lookup_insert_eq by done.
    by destruct (truthy_opt _).
  - unfold test_database, set_flag. rewrite lookup_insert_eq.
    by destruct (truthy_opt _).
  - intros e' Hi Hu Hn.
    unfold test_database, check_database, set_flag. by rewrite Hi, Hu, Hn.
Qed.

(** X19. The name of the database never reaches the response: the
    handler stores it under [database_name] and then overwrites that key
    with the flag. *)
Theorem test_database_hides_db_name (v : value) (lc : exc (list string))
    (env : string → option string) :
  test_database
    {| import_db := Imported (Some {| name := Present v;
                                      list_collection_names := lc |});
       getenv := env |}
  = test_database
      {| import_db := Imported (Some {| name := Missing;
                                        list_collection_names := lc |});
         getenv := env |}.
Proof.
  unfold test_database, check_database.
  cbn [import_db name list_collection_names].
  destruct lc; reflexivity.
Qed.

(** X20. The connection status is "Connected" exactly when the import
    gave a database object whose name could be read, also when listing
    the collections failed; otherwise it stays "Not Connected". *)
Theorem test_database_connection_status (e : Env) :
  (test_database e !! "connection_status" = Some (VStr "Connected")
   ↔ connected e)
  ∧ (test_database e !! "connection_status" = Some (VStr "Connected")
     ∨ test_database e !! "connection_status" = Some (VStr "Not Connected")).
Proof.
  rewrite connected_spec. health_cases e; cbn [import_db name].
  all: split; [split; first [done | by intros _]|];
       first [by left | by right].
Qed.

(** X21. The database line reads "Connected & Working" exactly when the
    database object was imported, named and listed without an exception;
    an object that is [None] gives "Available but not initialized", and
    an [ImportError] gives the module-not-found line without its
    message. *)
Theorem test_database_working (e : Env) :
  (test_database e !! "database" = Some (VStr "✅ Connected & Working")
   ↔ working e)
  ∧ (import_db e = Imported None →
     test_database e !! "database"
     = Some (VStr "⚠️  Available but not initialized"))
  ∧ (∀ msg, import_db e = ImportError msg →
       test_database e !! "database"
       = Some (VStr
           "❌ Database module not found (run enable-database first)")).
Proof.
  rewrite working_spec. health_cases e; cbn [import_db name list_collection_names].
  all: split; [split; first [done | by intros _ | idtac]|split; by intros; simplify_eq].
  all: intros Heq; vm_compute in Heq; discriminate.
Qed.

(** X22. The response always has the same six keys, the backend line is
    always "Running", and the database line is always a text. *)
Theorem test_database_shape (e : Env) :
  dom (test_database e)
  = ({[ "backend"; "database"; "database_url"; "database_name";
        "connection_status"; "collections" ]} : gset string)
  ∧ test_database e !! "backend" = Some (VStr "✅ Running")
  ∧ ∃ line : string, test_database e !! "database" = Some (VStr line).
Proof.
  health_cases e.
  all: split; [vm_compute; reflexivity|];
       split; [reflexivity|]; eexists; reflexivity.
Qed.

End HealthProperties.

(** The self-test on a database with twelve collections lists ten. *)
Example crowded_env_lists_ten :
  Health.test_database (H := Health.ascii_slicing) MoreSamples.crowded_env
    !! "collections"
  = Some (Py.VList ["c01"; "c02"; "c03"; "c04"; "c05"; "c06"; "c07"; "c08";
                    "c09"; "c10"]).
Proof. reflexivity. Qed.
